(** * Fingerprint capture front end: capture flow controller and camera component

    A shallow embedding of the three source files of the repository:

    - the capture flow controller with method selection, live capture and
      file upload ([Module App], from [src/unnamed/part_000]);
    - the earlier controller without the upload path ([Module AppLive],
      from [src/src/App.tsx]);
    - the camera acquisition component ([Module Camera], from
      [src/unnamed/part_001]).

    React state is modelled as a record; an event handler is a function of
    the render snapshot it closes over and returns the states it commits
    and the calls it makes to the platform.  Everything outside the program
    (the configuration, [fetch], the body of a response) is a [World]
    value the handlers consult. *)

From Stdlib Require Import String Ascii List Bool ZArith QArith Lia.
From Stdlib Require Import DecimalString.
Import ListNotations.

Open Scope string_scope.
Open Scope list_scope.
Open Scope Z_scope.

(* ================================================================== *)
(** ** JavaScript values and the built-ins the program calls            *)
(* ================================================================== *)

Module JS.

(** The operations of JS numbers the program relies on: [String(n)] and
    the truthiness test.  JSON numbers are IEEE doubles; the development
    is parametric in them. *)
Class JsNumber (N : Type) : Type := {
  Number_toString : N -> string;
  Number_toBoolean : N -> bool
}.

(** The decimal numeral of an integer. *)
Definition decimal (z : Z) : string :=
  match z with
  | Z0 => "0"
  | Zpos p => NilEmpty.string_of_uint (Pos.to_uint p)
  | Zneg p => "-" ++ NilEmpty.string_of_uint (Pos.to_uint p)
  end.

(** The integers of magnitude below 2^53: each of them is a double, and
    [String(n)] is its decimal numeral. *)
Record SafeInteger : Type := {
  integer : Z;
  is_safe : (Z.abs integer <? 2 ^ 53) = true
}.

#[export] Instance JsNumber_SafeInteger : JsNumber SafeInteger := {
  Number_toString := fun n => decimal (integer n);
  Number_toBoolean := fun n => negb (integer n =? 0)
}.

(** The message of the [TypeError] the engine throws when an object has
    no primitive value; engines word it differently. *)
Class JsEngine : Type := {
  TypeError_no_primitive : string
}.

#[local] Set Warnings "-register-all".

(** What [JSON.parse] returns.  An object is the list of its own
    enumerable entries in enumeration order. *)
Inductive Json (N : Type) : Type :=
| JNull
| JBool (b : bool)
| JNum (n : N)
| JStr (s : string)
| JArr (items : list (Json N))
| JObj (entries : list (string * Json N)).

Arguments JNull {N}.
Arguments JBool {N} b.
Arguments JNum {N} n.
Arguments JStr {N} s.
Arguments JArr {N} items.
Arguments JObj {N} entries.

(** A value thrown or a promise rejection reason: an [Error] instance
    with its [message], or any other value. *)
Inductive Thrown : Type :=
| ErrorObject (message : string)
| NotAnError.

(** Settled promise / result of a [try] block. *)
Inductive Completion (A : Type) : Type :=
| Fulfilled (a : A)
| Rejected (reason : Thrown).

Arguments Fulfilled {A} a.
Arguments Rejected {A} reason.

Section Builtins.
Context {N : Type} `{JsNumber N}.

(** All the results of a list of conversions, or [None] as soon as one of
    them throws. *)
Fixpoint sequence {A : Type} (results : list (option A)) : option (list A) :=
  match results with
  | [] => Some []
  | None :: _ => None
  | Some a :: rest =>
      match sequence rest with
      | Some others => Some (a :: others)
      | None => None
      end
  end.

(** Whether a parsed object has an entry under [key]. *)
Definition has_own (key : string) (entries : list (string * Json N)) : bool :=
  existsb (fun entry => (fst entry =? key)%string) entries.

(** [Array.prototype.join]: [null] elements print as the empty string,
    the others through [str]; [None] when one of them throws. *)
Definition join_with (str : Json N -> option string) (sep : string)
  (items : list (Json N)) : option string :=
  option_map (String.concat sep)
    (sequence
       (map (fun x => match x with JNull => Some "" | _ => str x end) items)).

(** [String(value)]; [None] when it throws a [TypeError].  An object
    without an entry "toString" is printed by [Object.prototype.toString];
    an object with such an entry has no primitive value, a parsed value
    being no function: neither that entry nor [valueOf] yields one. *)
Fixpoint ToString (v : Json N) : option string :=
  match v with
  | JNull => Some "null"
  | JBool true => Some "true"
  | JBool false => Some "false"
  | JNum n => Some (Number_toString n)
  | JStr s => Some s
  | JArr items => join_with ToString "," items
  | JObj entries =>
      if has_own "toString" entries then None else Some "[object Object]"
  end.

(** [value.join(sep)] *)
Definition Array_join (items : list (Json N)) (sep : string) : option string :=
  join_with ToString sep items.

(** [typeof value === 'object'] ([typeof null] is ['object'] too). *)
Definition typeof_object (v : Json N) : bool :=
  match v with
  | JNull | JArr _ | JObj _ => true
  | _ => false
  end.

(** Truthiness of a value in a boolean context. *)
Definition ToBoolean (v : Json N) : bool :=
  match v with
  | JNull => false
  | JBool b => b
  | JNum n => Number_toBoolean n
  | JStr s => negb (s =? "")%string
  | JArr _ | JObj _ => true
  end.

(** Index keys ["0"], ["1"], ... of an array. *)
Fixpoint indexed (i : nat) (items : list (Json N)) : list (string * Json N) :=
  match items with
  | [] => []
  | x :: rest => (NilEmpty.string_of_uint (Nat.to_uint i), x) :: indexed (S i) rest
  end.

(** [Object.entries(value)] on the values that reach it in the program
    (non-null values of type ['object']): the entries of an object, the
    index/element pairs of an array.  Numbers and booleans have no own
    enumerable properties. *)
Definition Object_entries (v : Json N) : list (string * Json N) :=
  match v with
  | JObj entries => entries
  | JArr items => indexed 0 items
  | _ => []
  end.

(** [value.key] for a key that no prototype defines: the entry of an
    object under that key; [None] is [undefined]. *)
Definition get_entry (v : Json N) (key : string) : option (Json N) :=
  match v with
  | JObj entries =>
      option_map snd (find (fun entry => (fst entry =? key)%string) entries)
  | _ => None
  end.

End Builtins.

(** [s.includes(needle)] *)
Definition includes (needle s : string) : bool :=
  match String.index 0 needle s with
  | Some _ => true
  | None => false
  end.

(** [s.startsWith(p)] *)
Definition startsWith (p s : string) : bool := String.prefix p s.

(** Truthiness of a string ([s || fallback], [if (!s)]). *)
Definition truthy_string (s : string) : bool := negb (s =? "")%string.

End JS.

(* ================================================================== *)
(** ** The platform: files, form data, [fetch]                          *)
(* ================================================================== *)

Module Web.
Import JS.

Definition Blob : Type := string.

(** A [File]: its name, its MIME type and its bytes. *)
Record File : Type := {
  name : string;
  type : string;
  bits : Blob
}.

(** An entry value of a [FormData]. *)
Inductive FormDataEntryValue : Type :=
| FieldString (s : string)
| FieldFile (f : File).

Definition FormData : Type := list (string * FormDataEntryValue).

(** [formData.append(name, value)] *)
Definition append (formData : FormData) (field : string)
  (value : FormDataEntryValue) : FormData :=
  formData ++ [(field, value)].

(** [formData.get(name)]: the first value under that name. *)
Fixpoint get (formData : FormData) (field : string) : option FormDataEntryValue :=
  match formData with
  | [] => None
  | (k, v) :: rest => if (k =? field)%string then Some v else get rest field
  end.

(** The arguments of one [fetch] call. *)
Record Request : Type := {
  url : string;
  method : string;
  body : option FormData
}.

Section Responses.
Context {N : Type}.

(** The parts of a [Response] the program reads. *)
Record Response : Type := {
  status : Z;
  blob : Completion Blob;
  json : Completion (Json N)
}.

(** [response.ok]: the status is in the range 200 to 299. *)
Definition ok (response : Response) : bool :=
  (200 <=? status response) && (status response <=? 299).

(** Everything the handlers consult outside the program. *)
Record World : Type := {
  VITE_API_BASE_URL : option string;
  fetch : Request -> Completion Response
}.

End Responses.

Arguments Response N : clear implicits.
Arguments World N : clear implicits.

(** Asynchronous code inside a [try] block: it fulfils or rejects, and
    appends the requests it makes to the log of [fetch] calls. *)
Definition Async (A : Type) : Type := list Request -> Completion A * list Request.

Definition ret {A} (a : A) : Async A := fun log => (Fulfilled a, log).

Definition throw {A} (e : Thrown) : Async A := fun log => (Rejected e, log).

Definition bind {A B} (c : Async A) (k : A -> Async B) : Async B :=
  fun log =>
    match c log with
    | (Fulfilled a, log') => k a log'
    | (Rejected e, log') => (Rejected e, log')
    end.

(** [await p] for an already settled promise. *)
Definition await {A} (p : Completion A) : Async A := fun log => (p, log).

(** [await fetch(url, init)] *)
Definition await_fetch {N} (w : World N) (req : Request) : Async (Response N) :=
  fun log => (fetch w req, log ++ [req]).

Definition run {A} (c : Async A) : Completion A * list Request := c [].

(** Whether a block has suspended at an [await].  The first [await] of
    every handler waits for a [fetch], so a block has suspended if and
    only if it has made a request.  The [set...] calls a handler makes
    before it first suspends are rendered as one batch. *)
Definition awaited (log : list Request) : bool :=
  match log with
  | [] => false
  | _ :: _ => true
  end.

End Web.

Declare Scope async_scope.
Delimit Scope async_scope with async.
Notation "x <- c ;; k" := (Web.bind c (fun x => k))
  (at level 61, c at next level, right associativity) : async_scope.

(* ================================================================== *)
(** ** The submission code shared by the three submitting handlers      *)
(* ================================================================== *)

(** [handleUploadSubmit] (part_000, lines 65-118), [handleCapture]
    (part_000, lines 132-185) and [handleCapture] of [src/src/App.tsx]
    (lines 43-96) contain the same statements, from the construction of
    the form data to the choice of the error message; they are embedded
    once. *)
Module Submission.
Import JS Web.
Local Open Scope async_scope.

Inductive FingerType : Type := index | middle | ring | pinky | thumb.

(** The string a [FingerType] is at run time. *)
Definition FingerType_value (f : FingerType) : string :=
  match f with
  | index => "index"
  | middle => "middle"
  | ring => "ring"
  | pinky => "pinky"
  | thumb => "thumb"
  end.

Definition fingerOptions : list FingerType := [index; middle; ring; pinky; thumb].

Section WithNumbers.
Context {N : Type} `{JsNumber N} `{JsEngine}.

(** The callback of [Object.entries(errorData).map(...)]: an array value
    ([Array.isArray(value)]) is joined with ", ", any other value goes
    through [String(value)]; [None] when the conversion throws. *)
Definition entry_message (entry : string * Json N) : option string :=
  let '(key, value) := entry in
  match value with
  | JArr items => Array_join items ", "
  | _ => ToString value
  end.

(** [Object.entries(errorData).map(...).join('. ')]; [None] when a
    callback throws. *)
Definition errorMessages (errorData : Json N) : option string :=
  option_map (String.concat ". ")
    (sequence (map entry_message (Object_entries errorData))).

(** The [if (!response.ok) { ... }] block: it always throws, the
    [TypeError] of a failed conversion included. *)
Definition reject_response {A} (response : Response N) : Async A :=
  let errorData :=
    match json response with
    | Fulfilled v => v
    | Rejected _ => JNull
    end in
  if ToBoolean errorData && typeof_object errorData then
    match errorMessages errorData with
    | Some messages =>
        throw (ErrorObject
                 (if truthy_string messages
                  then messages
                  else "Failed to process fingerprint"))
    | None => throw (ErrorObject TypeError_no_primitive)
    end
  else if status response >=? 500 then
    throw (ErrorObject "Server error. Please try again later.")
  else
    throw (ErrorObject "Failed to process fingerprint. Please try again.").

(** The body of the [try] block from [new FormData()] on. *)
Definition submit (w : World N) (selectedFinger : FingerType) (file : File)
  : Async (Json N) :=
  let formData := append [] "finger_type" (FieldString (FingerType_value selectedFinger)) in
  let formData := append formData "original_image" (FieldFile file) in
  match VITE_API_BASE_URL w with
  | None => throw (ErrorObject "API base URL is not configured")
  | Some baseUrl =>
      if negb (truthy_string baseUrl) then
        throw (ErrorObject "API base URL is not configured")
      else
        response <- await_fetch w {| url := baseUrl ++ "/finger/capture";
                                     method := "POST";
                                     body := Some formData |} ;;
        if negb (ok response) then reject_response response
        else
          data <- await (json response) ;;
          ret data
  end.

(** The start of the [try] block of [handleCapture]: the captured frame
    is turned into a [File]. *)
Definition captured_file (w : World N) (imageData : string) : Async File :=
  r <- await_fetch w {| url := "data:image/png;base64," ++ imageData;
                        method := "GET";
                        body := None |} ;;
  blob <- await (Web.blob r) ;;
  ret {| name := "fingerprint.png"; type := "image/png"; bits := blob |}.

(** [interface ApiResponse], declared in both controllers: a message and
    a [data] object of five fields, all strings.  The handlers do not
    check a parsed body against it. *)
Definition is_string_entry (v : Json N) (key : string) : bool :=
  match get_entry v key with
  | Some (JStr _) => true
  | _ => false
  end.

Definition is_ApiResponse (v : Json N) : bool :=
  is_string_entry v "message" &&
  match get_entry v "data" with
  | Some data =>
      forallb (is_string_entry data)
        ["finger_type"; "original_image"; "print_image"; "device_info";
         "created_at"]
  | None => false
  end.

(** Whether the expressions of the result block, the same in both
    controllers, evaluate for a truthy [result]: [result.data] must be
    neither undefined nor null for [result.data.print_image],
    [result.data.finger_type] must be a string for [charAt] and [slice],
    and [new Date(result.data.created_at)] must find a primitive value,
    which it does when [String] does.  When one of them throws, the
    render fails and React removes the application from the screen. *)
Definition result_block_evaluates (result : Json N) : bool :=
  match get_entry result "data" with
  | None | Some JNull => false
  | Some data =>
      match get_entry data "finger_type" with
      | Some (JStr _) =>
          match get_entry data "created_at" with
          | Some created_at =>
              match ToString created_at with
              | Some _ => true
              | None => false
              end
          | None => true
          end
      | _ => false
      end
  end.

End WithNumbers.

(** The message the [catch] block computes from what was thrown. *)
Definition catch_message (err : Thrown) : string :=
  match err with
  | ErrorObject message =>
      if includes "fetch" message then
        "Network error. Please check your connection."
      else message
  | NotAnError => "An error occurred. Please try again."
  end.

End Submission.

(* ================================================================== *)
(** ** The capture flow controller ([src/unnamed/part_000])             *)
(* ================================================================== *)

Module App.
Import JS Web Submission.

Inductive View : Type :=
| v_method_selection
| v_selection
| v_camera
| v_upload
| v_loading
| v_result.

Section WithNumbers.
Context {N : Type} `{JsNumber N} `{JsEngine}.

(** The six [useState] cells.  [result] holds whatever the response body
    parsed to; [null] is [JNull]. *)
Record State : Type := {
  currentView : View;
  selectedFinger : FingerType;
  capturedImage : string;
  selectedFile : option File;
  result : Json N;
  error : string
}.

Definition initial : State := {|
  currentView := v_method_selection;
  selectedFinger := index;
  capturedImage := "";
  selectedFile := None;
  result := JNull;
  error := ""
|}.

Definition setCurrentView (v : View) (s : State) : State :=
  {| currentView := v; selectedFinger := selectedFinger s;
     capturedImage := capturedImage s; selectedFile := selectedFile s;
     result := result s; error := error s |}.

Definition setSelectedFinger (f : FingerType) (s : State) : State :=
  {| currentView := currentView s; selectedFinger := f;
     capturedImage := capturedImage s; selectedFile := selectedFile s;
     result := result s; error := error s |}.

Definition setCapturedImage (i : string) (s : State) : State :=
  {| currentView := currentView s; selectedFinger := selectedFinger s;
     capturedImage := i; selectedFile := selectedFile s;
     result := result s; error := error s |}.

Definition setSelectedFile (f : option File) (s : State) : State :=
  {| currentView := currentView s; selectedFinger := selectedFinger s;
     capturedImage := capturedImage s; selectedFile := f;
     result := result s; error := error s |}.

Definition setResult (r : Json N) (s : State) : State :=
  {| currentView := currentView s; selectedFinger := selectedFinger s;
     capturedImage := capturedImage s; selectedFile := selectedFile s;
     result := r; error := error s |}.

Definition setError (e : string) (s : State) : State :=
  {| currentView := currentView s; selectedFinger := selectedFinger s;
     capturedImage := capturedImage s; selectedFile := selectedFile s;
     result := result s; error := e |}.

(** What a handler does: the states it commits, in order (one per batch
    of [set...] calls: the calls made before the handler first suspends
    form one batch, those made after an [await] another), and the [fetch]
    calls it makes.  Whether the view of a committed state can be
    rendered is a matter of that state: see [retake_offered]. *)
Record Run : Type := {
  frames : list State;
  sent : list Request
}.

(** The state on screen once the handler has finished. *)
Definition settled (s : State) (r : Run) : State := last (frames r) s.

Definition handleSelectLiveCapture (s : State) : State :=
  setError "" (setCurrentView v_selection s).

Definition handleSelectUpload (s : State) : State :=
  setError "" (setCurrentView v_upload s).

Definition handleProceedToCamera (s : State) : State :=
  setError "" (setCurrentView v_camera s).

(** [event.target.files?.[0]] *)
Definition first_file (files : option (list File)) : option File :=
  match files with
  | Some (file :: _) => Some file
  | _ => None
  end.

Definition handleFileSelect (files : option (list File)) (s : State) : State :=
  match first_file files with
  | Some file =>
      if startsWith "image/" (type file) then
        setError "" (setSelectedFile (Some file) s)
      else setError "Please select a valid image file" s
  | None => setError "Please select a valid image file" s
  end.

Definition handleUploadSubmit (w : World N) (s : State) : Run :=
  match selectedFile s with
  | None =>
      {| frames := [setError "Please select an image file" s]; sent := [] |}
  | Some file =>
      let loading := setError "" (setCurrentView v_loading s) in
      let '(completion, log) := run (submit w (selectedFinger s) file) in
      let final :=
        match completion with
        | Fulfilled data => setCurrentView v_result (setResult data loading)
        | Rejected err =>
            setCurrentView v_upload (setError (catch_message err) loading)
        end in
      {| frames := if awaited log then [loading; final] else [final];
         sent := log |}
  end.

Definition handleCapture (w : World N) (imageData : string) (s : State) : Run :=
  let loading :=
    setError "" (setCurrentView v_loading (setCapturedImage imageData s)) in
  let '(completion, log) :=
    run (file <- captured_file w imageData ;;
         submit w (selectedFinger s) file)%async in
  {| frames :=
       [loading;
        match completion with
        | Fulfilled data => setCurrentView v_result (setResult data loading)
        | Rejected err =>
            setCurrentView v_camera (setError (catch_message err) loading)
        end];
     sent := log |}.

Definition handleRetake (s : State) : State :=
  setCurrentView v_method_selection
    (setError "" (setSelectedFile None (setCapturedImage "" (setResult JNull s)))).

(** The error box of the camera and upload views: [{error && (...)}]. *)
Definition displayed_error (s : State) : option string :=
  match currentView s with
  | v_camera | v_upload =>
      if truthy_string (error s) then Some (error s) else None
  | _ => None
  end.

(** Whether the result view shows its block, and with it the "Back to
    Start" button: [currentView === 'result' && result && (...)] renders
    nothing for a falsy result, and for a truthy one the block must
    evaluate. *)
Definition retake_offered (s : State) : bool :=
  ToBoolean (result s) && result_block_evaluates (result s).

(** [disabled={!selectedFile}] on the "Process Image" button. *)
Definition submit_disabled (s : State) : bool :=
  match selectedFile s with
  | Some _ => false
  | None => true
  end.

(** The user's actions, one per control of the rendered views, and the
    frame the camera component hands to [onCapture]. *)
Inductive Event : Type :=
| ClickLiveCapture
| ClickUploadImage
| ClickBack
| ChangeFinger (f : FingerType)
| ClickContinue
| OnCapture (imageData : string)
| ChangeFile (files : option (list File))
| ClickProcessImage
| ClickBackToStart.

Definition commit (s : State) : Run := {| frames := [s]; sent := [] |}.

Definition idle : Run := {| frames := []; sent := [] |}.

(** The handler a view binds to each of its controls; a control that the
    current view does not render (or renders disabled) does nothing. *)
Definition dispatch (w : World N) (e : Event) (s : State) : Run :=
  match currentView s, e with
  | v_method_selection, ClickLiveCapture => commit (handleSelectLiveCapture s)
  | v_method_selection, ClickUploadImage => commit (handleSelectUpload s)
  | v_selection, ClickBack => commit (setCurrentView v_method_selection s)
  | v_selection, ChangeFinger f => commit (setSelectedFinger f s)
  | v_selection, ClickContinue => commit (handleProceedToCamera s)
  | v_camera, ClickBack => commit (setCurrentView v_selection s)
  | v_camera, OnCapture imageData => handleCapture w imageData s
  | v_upload, ClickBack => commit (setCurrentView v_method_selection s)
  | v_upload, ChangeFinger f => commit (setSelectedFinger f s)
  | v_upload, ChangeFile files => commit (handleFileSelect files s)
  | v_upload, ClickProcessImage =>
      if submit_disabled s then idle else handleUploadSubmit w s
  | v_result, ClickBackToStart =>
      if retake_offered s then commit (handleRetake s) else idle
  | _, _ => idle
  end.

(** The states the application can be in, in a given world. *)
Inductive reachable (w : World N) : State -> Prop :=
| reachable_initial : reachable w initial
| reachable_step s e :
    reachable w s -> reachable w (settled s (dispatch w e s)).

(** The file cell holds only files whose type starts with "image/". *)
Definition image_selected (s : State) : Prop :=
  forall f, selectedFile s = Some f -> startsWith "image/" (type f) = true.

(** The files posted by a list of requests. *)
Definition posted_files (log : list Request) : list File :=
  flat_map
    (fun req =>
       match body req with
       | Some formData =>
           flat_map (fun entry =>
                       match snd entry with
                       | FieldFile f => [f]
                       | FieldString _ => []
                       end) formData
       | None => []
       end) log.

End WithNumbers.

Arguments State N : clear implicits.
Arguments Run N : clear implicits.

End App.

(* ================================================================== *)
(** ** The controller without the upload path ([src/src/App.tsx])       *)
(* ================================================================== *)

Module AppLive.
Import JS Web Submission.

Inductive View : Type :=
| v_selection
| v_camera
| v_loading
| v_result.

Section WithNumbers.
Context {N : Type} `{JsNumber N} `{JsEngine}.

Record State : Type := {
  currentView : View;
  selectedFinger : FingerType;
  capturedImage : string;
  result : Json N;
  error : string
}.

Definition initial : State := {|
  currentView := v_selection;
  selectedFinger := index;
  capturedImage := "";
  result := JNull;
  error := ""
|}.

Definition setCurrentView (v : View) (s : State) : State :=
  {| currentView := v; selectedFinger := selectedFinger s;
     capturedImage := capturedImage s; result := result s; error := error s |}.

Definition setSelectedFinger (f : FingerType) (s : State) : State :=
  {| currentView := currentView s; selectedFinger := f;
     capturedImage := capturedImage s; result := result s; error := error s |}.

Definition setCapturedImage (i : string) (s : State) : State :=
  {| currentView := currentView s; selectedFinger := selectedFinger s;
     capturedImage := i; result := result s; error := error s |}.

Definition setResult (r : Json N) (s : State) : State :=
  {| currentView := currentView s; selectedFinger := selectedFinger s;
     capturedImage := capturedImage s; result := r; error := error s |}.

Definition setError (e : string) (s : State) : State :=
  {| currentView := currentView s; selectedFinger := selectedFinger s;
     capturedImage := capturedImage s; result := result s; error := e |}.

Record Run : Type := {
  frames : list State;
  sent : list Request
}.

Definition handleProceedToCamera (s : State) : State :=
  setError "" (setCurrentView v_camera s).

Definition handleCapture (w : World N) (imageData : string) (s : State) : Run :=
  let loading :=
    setError "" (setCurrentView v_loading (setCapturedImage imageData s)) in
  let '(completion, log) :=
    run (file <- captured_file w imageData ;;
         submit w (selectedFinger s) file)%async in
  {| frames :=
       [loading;
        match completion with
        | Fulfilled data => setCurrentView v_result (setResult data loading)
        | Rejected err =>
            setCurrentView v_camera (setError (catch_message err) loading)
        end];
     sent := log |}.

Definition handleRetake (s : State) : State :=
  setCurrentView v_selection
    (setError "" (setCapturedImage "" (setResult JNull s))).

(** The error box of the camera view: [{error && (...)}]. *)
Definition displayed_error (s : State) : option string :=
  match currentView s with
  | v_camera => if truthy_string (error s) then Some (error s) else None
  | _ => None
  end.

(** The state on screen once the handler has finished. *)
Definition settled (s : State) (r : Run) : State := last (frames r) s.

End WithNumbers.

Arguments State N : clear implicits.
Arguments Run N : clear implicits.

End AppLive.

(* ================================================================== *)
(** ** The camera acquisition component ([src/unnamed/part_001])        *)
(* ================================================================== *)

Module Camera.

Local Open Scope Q_scope.

(** One set of the [advanced] list passed to [applyConstraints], and the
    [settings] object passed to [setOptions]. *)
Inductive ConstraintSet : Type :=
| Torch (torch : bool)
| Manual (exposureTime exposureCompensation iso : Q)
| Continuous (exposureCompensation : Q).

(** The calls the component makes on the device. *)
Inductive DeviceCall : Type :=
| ApplyConstraints (advanced : ConstraintSet)
| SetOptions (settings : ConstraintSet).

(** The [useState] cells of the component. *)
Record State : Type := {
  hasPermission : bool;
  isMacroMode : bool;
  isFlashOn : bool;
  error : string;
  exposureMode : string;
  exposureTime : Q;
  exposureCompensation : Q;
  iso : Q
}.

Definition initial : State := {|
  hasPermission := false;
  isMacroMode := true;
  isFlashOn := true;
  error := "";
  exposureMode := "manual";
  exposureTime := 2.5;
  exposureCompensation := 0;
  iso := 400
|}.

(** What [applySettings] finds outside the state: whether
    [trackRef.current] and [imageCaptureRef.current] are set, and which
    constraint sets the track accepts ([applyConstraints] rejects the
    others). *)
Record Device : Type := {
  trackRef : bool;
  imageCaptureRef : bool;
  supports : ConstraintSet -> bool
}.

Definition setIsMacroMode (b : bool) (s : State) : State :=
  {| hasPermission := hasPermission s; isMacroMode := b;
     isFlashOn := isFlashOn s; error := error s;
     exposureMode := exposureMode s; exposureTime := exposureTime s;
     exposureCompensation := exposureCompensation s; iso := iso s |}.

Definition setIsFlashOn (b : bool) (s : State) : State :=
  {| hasPermission := hasPermission s; isMacroMode := isMacroMode s;
     isFlashOn := b; error := error s;
     exposureMode := exposureMode s; exposureTime := exposureTime s;
     exposureCompensation := exposureCompensation s; iso := iso s |}.

Definition setExposureTime (q : Q) (s : State) : State :=
  {| hasPermission := hasPermission s; isMacroMode := isMacroMode s;
     isFlashOn := isFlashOn s; error := error s;
     exposureMode := exposureMode s; exposureTime := q;
     exposureCompensation := exposureCompensation s; iso := iso s |}.

Definition setExposureCompensation (q : Q) (s : State) : State :=
  {| hasPermission := hasPermission s; isMacroMode := isMacroMode s;
     isFlashOn := isFlashOn s; error := error s;
     exposureMode := exposureMode s; exposureTime := exposureTime s;
     exposureCompensation := q; iso := iso s |}.

Definition setIso (q : Q) (s : State) : State :=
  {| hasPermission := hasPermission s; isMacroMode := isMacroMode s;
     isFlashOn := isFlashOn s; error := error s;
     exposureMode := exposureMode s; exposureTime := exposureTime s;
     exposureCompensation := exposureCompensation s; iso := q |}.

(** [applySettings], as closed over the render whose state is [s]: the
    device calls it makes, in order.  Each [applyConstraints] sits in its
    own [try]; a rejected one is logged to the console and skips the rest
    of its block only. *)
Definition applySettings (d : Device) (s : State) : list DeviceCall :=
  if negb (trackRef d) then []
  else
    [ApplyConstraints (Torch (isFlashOn s))] ++
    (if isMacroMode s then
       let settings :=
         Manual (exposureTime s) (exposureCompensation s) (iso s) in
       [ApplyConstraints settings] ++
       (if supports d settings && imageCaptureRef d
        then [SetOptions settings] else [])
     else
       [ApplyConstraints (Continuous 0)]).

(** Whether a dependency of an effect changed between two renders. *)
Definition changed_bool (a b : bool) : bool := negb (Bool.eqb a b).

Definition changed_number (a b : Q) : bool := negb (Qeq_bool a b).

(** The two effects with dependencies, run after the render of [s'] that
    follows the render of [s]: each one calls the [applySettings] of the
    new render. *)
Definition effects (d : Device) (s s' : State) : list (list DeviceCall) :=
  (if changed_bool (isFlashOn s) (isFlashOn s')
      || changed_bool (isMacroMode s) (isMacroMode s')
   then (if hasPermission s' then [applySettings d s'] else [])
   else []) ++
  (if changed_number (exposureTime s) (exposureTime s')
      || changed_number (iso s) (iso s')
   then (if hasPermission s' && isMacroMode s' then [applySettings d s'] else [])
   else []).

(** The state updates [toggleMacroMode] queues. *)
Definition toggleMacroMode_updates (s : State) : State :=
  let newMacroMode := negb (isMacroMode s) in
  let s1 := setIsMacroMode newMacroMode s in
  if newMacroMode then
    setExposureCompensation 0 (setIso 400 (setExposureTime 2.5 s1))
  else s1.

(** A click on the exposure-mode button: [toggleMacroMode] runs in the
    render of [s], so its own [applySettings()] call reads [s]; the
    queued updates are then rendered and the effects run.  The result is
    the new state and the runs of [applySettings], the handler's first. *)
Definition toggleMacroMode (d : Device) (s : State)
  : State * list (list DeviceCall) :=
  let s' := toggleMacroMode_updates s in
  (s', applySettings d s :: effects d s s').

(** [toggleFlash] and the effect it triggers. *)
Definition toggleFlash (d : Device) (s : State)
  : State * list (list DeviceCall) :=
  let s' := setIsFlashOn (negb (isFlashOn s)) s in
  (s', effects d s s').

End Camera.

(* ================================================================== *)
(** ** Vocabulary of the statements                                     *)
(* ================================================================== *)

Module Exchange.
Import JS Web Submission.

(** The form data posted by a list of [fetch] calls. *)
Definition forms (log : list Request) : list FormData :=
  flat_map (fun req => match body req with
                       | Some formData => [formData]
                       | None => []
                       end) log.

(** The [finger_type] field of each posted form. *)
Definition finger_type_fields (log : list Request) : list (option FormDataEntryValue) :=
  map (fun formData => get formData "finger_type") (forms log).

(** The request [submit] posts to the processing endpoint. *)
Definition post_request (baseUrl : string) (finger : FingerType) (file : File)
  : Request :=
  {| url := baseUrl ++ "/finger/capture";
     method := "POST";
     body := Some [("finger_type", FieldString (FingerType_value finger));
                   ("original_image", FieldFile file)] |}.

(** The local request that decodes a captured frame. *)
Definition data_request (imageData : string) : Request :=
  {| url := "data:image/png;base64," ++ imageData;
     method := "GET";
     body := None |}.

(** The file built from a decoded frame. *)
Definition png_file (b : Blob) : File :=
  {| name := "fingerprint.png"; type := "image/png"; bits := b |}.

Section WithNumbers.
Context {N : Type} `{JsNumber N} `{JsEngine}.

(** The base URL is configured: defined and not the empty string. *)
Definition configured (w : World N) : bool :=
  match VITE_API_BASE_URL w with
  | Some baseUrl => truthy_string baseUrl
  | None => false
  end.

(** [errorData]: the parsed body of a failure response, [null] when it
    does not parse. *)
Definition error_data (response : Response N) : Json N :=
  match json response with
  | Fulfilled v => v
  | Rejected _ => JNull
  end.

(** The test [errorData && typeof errorData === 'object']. *)
Definition is_object (v : Json N) : bool := ToBoolean v && typeof_object v.

(** The message of the error thrown for a failure response. *)
Definition response_error (response : Response N) : string :=
  if is_object (error_data response) then
    match errorMessages (error_data response) with
    | Some messages =>
        if truthy_string messages then messages
        else "Failed to process fingerprint"
    | None => TypeError_no_primitive
    end
  else if status response >=? 500 then "Server error. Please try again later."
  else "Failed to process fingerprint. Please try again.".

(** How the [try] block ends once the endpoint has answered. *)
Definition response_outcome (response : Response N) : Completion (Json N) :=
  if ok response then json response
  else Rejected (ErrorObject (response_error response)).

(** The endpoint answers the submission of [file] for [finger] with
    [response]. *)
Definition answered (w : World N) (finger : FingerType) (file : File)
  (response : Response N) : Prop :=
  exists baseUrl,
    VITE_API_BASE_URL w = Some baseUrl /\
    truthy_string baseUrl = true /\
    fetch w (post_request baseUrl finger file) = Fulfilled response.

(** What decoding the captured frame [imageData] yields: the local
    [fetch] of the data URL, then [r.blob()]. *)
Definition decode (w : World N) (imageData : string) : Completion Blob :=
  match fetch w (data_request imageData) with
  | Fulfilled r => blob r
  | Rejected e => Rejected e
  end.

(** The causes for which the submission of [file] for [finger] fails
    with [err]: the base URL is missing, the request does not get an
    answer, or the answer is a failure (a status outside 200-299, or a
    body that does not parse). *)
Inductive failure (w : World N) (finger : FingerType) (file : File)
  : Thrown -> Prop :=
| local_configuration_error :
    configured w = false ->
    failure w finger file (ErrorObject "API base URL is not configured")
| network_error baseUrl err :
    VITE_API_BASE_URL w = Some baseUrl ->
    truthy_string baseUrl = true ->
    fetch w (post_request baseUrl finger file) = Rejected err ->
    failure w finger file err
| remote_error response err :
    answered w finger file response ->
    response_outcome response = Rejected err ->
    failure w finger file err.

(** The three submitting handlers, once the endpoint has answered
    [response], end with [message] in the error cell and displayed. *)
Definition failure_message_shown (w : World N) (response : Response N)
  (message : string) : Prop :=
  (forall (s : App.State N) file,
      App.selectedFile s = Some file ->
      answered w (App.selectedFinger s) file response ->
      let r := App.handleUploadSubmit w s in
      App.error (App.settled s r) = message /\
      App.displayed_error (App.settled s r) = Some message) /\
  (forall (s : App.State N) imageData b,
      decode w imageData = Fulfilled b ->
      answered w (App.selectedFinger s) (png_file b) response ->
      let r := App.handleCapture w imageData s in
      App.error (App.settled s r) = message /\
      App.displayed_error (App.settled s r) = Some message) /\
  (forall (s : AppLive.State N) imageData b,
      decode w imageData = Fulfilled b ->
      answered w (AppLive.selectedFinger s) (png_file b) response ->
      let r := AppLive.handleCapture w imageData s in
      AppLive.error (AppLive.settled s r) = message /\
      AppLive.displayed_error (AppLive.settled s r) = Some message).

End WithNumbers.

End Exchange.

(* ================================================================== *)
(** ** Worlds and states used as concrete inputs                        *)
(* ================================================================== *)

Module Examples.
Import JS Web Submission Exchange.

(** The engine of the examples words the [TypeError] as V8 does. *)
#[export] Instance V8 : JsEngine := {
  TypeError_no_primitive := "Cannot convert object to primitive value"
}.

Definition decoded_frame : Response SafeInteger :=
  {| status := 200; blob := Fulfilled "PNG"; json := Rejected (ErrorObject "Unexpected token") |}.

(** A world whose endpoint answers every post with [response]; data URLs
    decode. *)
Definition answering (baseUrl : option string) (response : Response SafeInteger) : World SafeInteger :=
  {| VITE_API_BASE_URL := baseUrl;
     fetch := fun req =>
       match body req with
       | None => Fulfilled decoded_frame
       | Some _ => Fulfilled response
       end |}.

Definition respond (code : Z) (parsed : Completion (Json SafeInteger)) : Response SafeInteger :=
  {| status := code; blob := Fulfilled ""; json := parsed |}.

Definition api : option string := Some "https://api.example.test".

Definition scan : File :=
  {| name := "scan.png"; type := "image/png"; bits := "PNG" |}.

Definition notes : File :=
  {| name := "notes.txt"; type := "text/plain"; bits := "hello" |}.

Definition payload : Json SafeInteger :=
  JObj [("message", JStr "ok");
        ("data", JObj [("finger_type", JStr "middle");
                       ("original_image", JStr "/o.png");
                       ("print_image", JStr "/p.png");
                       ("device_info", JStr "d");
                       ("created_at", JStr "2024-01-01T00:00:00Z")])].

(** The upload view with [scan] selected. *)
Definition uploading (finger : FingerType) : App.State SafeInteger :=
  {| App.currentView := App.v_upload;
     App.selectedFinger := finger;
     App.capturedImage := "";
     App.selectedFile := Some scan;
     App.result := JNull;
     App.error := "" |}.

(** The camera view. *)
Definition framing (finger : FingerType) : App.State SafeInteger :=
  {| App.currentView := App.v_camera;
     App.selectedFinger := finger;
     App.capturedImage := "";
     App.selectedFile := None;
     App.result := JNull;
     App.error := "" |}.

Definition framing_live (finger : FingerType) : AppLive.State SafeInteger :=
  {| AppLive.currentView := AppLive.v_camera;
     AppLive.selectedFinger := finger;
     AppLive.capturedImage := "";
     AppLive.result := JNull;
     AppLive.error := "" |}.

(** A world without connection: every post is rejected the way browsers
    reject a failed [fetch]. *)
Definition offline : World SafeInteger :=
  {| VITE_API_BASE_URL := api;
     fetch := fun req =>
       match body req with
       | None => Fulfilled decoded_frame
       | Some _ => Rejected (ErrorObject "Failed to fetch")
       end |}.

Definition field_errors : Json SafeInteger :=
  JObj [("field", JArr [JStr "error one"; JStr "error two"])].

Definition no_errors : Json SafeInteger := JObj [].

Definition fetch_detail : Json SafeInteger :=
  JObj [("detail", JStr "Could not fetch the image")].

Definition array_body : Json SafeInteger := JArr [JStr "boom"].

Definition toString_detail : Json SafeInteger :=
  JObj [("detail", JObj [("toString", JStr "x")])].

Definition empty_object : Json SafeInteger := JObj [].

(** The upload view right after it was entered: no file selected. *)
Definition upload_entered : App.State SafeInteger := App.handleSelectUpload App.initial.

(** A camera in auto mode whose sliders were moved earlier. *)
Definition auto_mode : Camera.State :=
  {| Camera.hasPermission := true;
     Camera.isMacroMode := false;
     Camera.isFlashOn := true;
     Camera.error := "";
     Camera.exposureMode := "manual";
     Camera.exposureTime := 7.3%Q;
     Camera.exposureCompensation := 0%Q;
     Camera.iso := 800%Q |}.

(** A device with a live track and an image-capture object, accepting
    every constraint set. *)
Definition phone : Camera.Device :=
  {| Camera.trackRef := true;
     Camera.imageCaptureRef := true;
     Camera.supports := fun _ => true |}.

End Examples.

(* ================================================================== *)
(** ** Sequences of events and the two controllers side by side         *)
(* ================================================================== *)

Module Flow.
Import JS Web Submission.

Section WithNumbers.
Context {N : Type} `{JsNumber N} `{JsEngine}.

(** The state on screen after a sequence of events, each handled in the
    state the previous one left. *)
Fixpoint play (w : World N) (events : list App.Event) (s : App.State N)
  : App.State N :=
  match events with
  | [] => s
  | e :: rest => play w rest (App.settled s (App.dispatch w e s))
  end.

(** The events of the finger selector. *)
Definition changes_finger (e : App.Event) : bool :=
  match e with
  | App.ChangeFinger _ => true
  | _ => false
  end.

(** The events that can put an error on screen: a capture, a file choice
    and a click on "Process Image". *)
Definition may_fail (e : App.Event) : bool :=
  match e with
  | App.OnCapture _ | App.ChangeFile _ | App.ClickProcessImage => true
  | _ => false
  end.

(** The views of [src/src/App.tsx] among those of the controller with
    the upload path. *)
Definition live_view (v : App.View) : option AppLive.View :=
  match v with
  | App.v_selection => Some AppLive.v_selection
  | App.v_camera => Some AppLive.v_camera
  | App.v_loading => Some AppLive.v_loading
  | App.v_result => Some AppLive.v_result
  | App.v_method_selection | App.v_upload => None
  end.

(** A state of the controller with the upload path and a state of the
    one without hold the same values in the cells they share. *)
Definition corresponds (s : App.State N) (t : AppLive.State N) : Prop :=
  live_view (App.currentView s) = Some (AppLive.currentView t) /\
  App.selectedFinger s = AppLive.selectedFinger t /\
  App.capturedImage s = AppLive.capturedImage t /\
  App.result s = AppLive.result t /\
  App.error s = AppLive.error t.

End WithNumbers.

End Flow.

(* ================================================================== *)
(** ** The camera component: start-up, capture and controls             *)
(* ================================================================== *)

Module CameraLife.
Import Camera.

Local Open Scope Q_scope.

(** What [startCamera] can catch: an [Error] (or [DOMException]) with its
    [name] and [message], or any other value. *)
Inductive Exception : Type :=
| ErrorNamed (name message : string)
| NotAnError.

(** A settled promise of the media API. *)
Inductive Outcome (A : Type) : Type :=
| Resolved (a : A)
| Failed (e : Exception).

Arguments Resolved {A} a.
Arguments Failed {A} e.

(** What [startCamera] finds outside the state: the [kind] of each
    enumerated device, the answer to [getUserMedia] (asked for video, the
    stream it resolves with has a video track), whether [videoRef.current]
    is set (the video element is rendered for as long as the component is
    mounted), whether it already carries a stream, the answer to
    [play()], and whether the window has [ImageCapture]. *)
Record Platform : Type := {
  enumerateDevices : Outcome (list string);
  getUserMedia : Outcome unit;
  videoRef : bool;
  srcObject_is_stream : bool;
  play : Outcome unit;
  ImageCapture_in_window : bool
}.

(** The calls [startCamera] makes, in order. *)
Inductive PlatformCall : Type :=
| EnumerateDevices
| StopTracks
| GetUserMedia
| Play
| OnTrack (c : DeviceCall).

Definition setHasPermission (b : bool) (s : State) : State :=
  {| hasPermission := b; isMacroMode := isMacroMode s;
     isFlashOn := isFlashOn s; error := error s;
     exposureMode := exposureMode s; exposureTime := exposureTime s;
     exposureCompensation := exposureCompensation s; iso := iso s |}.

Definition setError (e : string) (s : State) : State :=
  {| hasPermission := hasPermission s; isMacroMode := isMacroMode s;
     isFlashOn := isFlashOn s; error := e;
     exposureMode := exposureMode s; exposureTime := exposureTime s;
     exposureCompensation := exposureCompensation s; iso := iso s |}.

(** The message the [catch] block of [startCamera] builds. *)
Definition errorMessage (err : Exception) : string :=
  "Error accessing camera. " ++
  match err with
  | ErrorNamed name message =>
      if (name =? "NotAllowedError")%string then
        "Please grant camera permissions."
      else if (name =? "NotFoundError")%string then
        "No camera found on this device."
      else if (name =? "NotReadableError")%string then
        "Camera is already in use."
      else message
  | NotAnError => ""
  end.

(** What a run of [startCamera] leaves: the state, the refs, and the
    calls made. *)
Record Started : Type := {
  state : State;
  device : Device;
  calls : list PlatformCall
}.

(** The [catch] block. *)
Definition failed (err : Exception) (d : Device) (s : State)
  (log : list PlatformCall) : Started :=
  {| state := setHasPermission false (setError (errorMessage err) s);
     device := d;
     calls := log |}.

(** [startCamera], as closed over the render whose state is [s]. *)
Definition startCamera (p : Platform) (d : Device) (s : State) : Started :=
  match enumerateDevices p with
  | Failed err => failed err d s [EnumerateDevices]
  | Resolved devices =>
      let cameras := filter (fun kind => (kind =? "videoinput")%string) devices in
      if (length cameras =? 0)%nat then
        failed (ErrorNamed "Error" "No camera detected on this device") d s
          [EnumerateDevices]
      else
        let log :=
          [EnumerateDevices] ++
          (if videoRef p && srcObject_is_stream p then [StopTracks] else []) ++
          [GetUserMedia] in
        match getUserMedia p with
        | Failed err => failed err d s log
        | Resolved _ =>
            let d' := {| trackRef := true;
                         imageCaptureRef :=
                           if ImageCapture_in_window p then true
                           else imageCaptureRef d;
                         supports := supports d |} in
            if videoRef p then
              match play p with
              | Failed err => failed err d' s (log ++ [Play])
              | Resolved _ =>
                  {| state := setError "" (setHasPermission true s);
                     device := d';
                     calls := log ++ [Play] ++ map OnTrack (applySettings d' s) |}
              end
            else {| state := s; device := d'; calls := log |}
        end
  end.

(** [s.split(sep)] for a separator of one character. *)
Fixpoint split (sep : ascii) (s : string) : list string :=
  match s with
  | EmptyString => [EmptyString]
  | String a rest =>
      if Ascii.eqb a sep then EmptyString :: split sep rest
      else match split sep rest with
           | piece :: pieces => String a piece :: pieces
           | [] => [String a EmptyString]
           end
  end.

(** [captureImage]: nothing happens without the video element or a 2D
    context; otherwise [onCapture] is called with the second piece of the
    canvas's data URL ([None] when that piece is [undefined]). *)
Definition captureImage (video context2d : bool) (dataURL : string)
  : option (option string) :=
  if negb video then None
  else if negb context2d then None
  else Some (nth_error (split "," dataURL) 1).

(** The controls of the component. *)
Inductive Event : Type :=
| ClickFlash
| ClickMode
| SlideIso (value : Q)
| SlideExposureTime (value : Q).

(** The handler bound to each control, followed by the effects of the
    re-render.  The buttons are rendered with [hasPermission], the
    sliders moreover with [isMacroMode]. *)
Definition dispatch (d : Device) (e : Event) (s : State)
  : State * list (list DeviceCall) :=
  if negb (hasPermission s) then (s, [])
  else
    match e with
    | ClickFlash => toggleFlash d s
    | ClickMode => toggleMacroMode d s
    | SlideIso value =>
        if isMacroMode s then (setIso value s, effects d s (setIso value s))
        else (s, [])
    | SlideExposureTime value =>
        if isMacroMode s
        then (setExposureTime value s, effects d s (setExposureTime value s))
        else (s, [])
    end.

(** The states of a mounted component: the first render, what
    [startCamera] (called once, from the first render) makes of it, and
    what the controls make of those. *)
Inductive reachable : State -> Prop :=
| reachable_initial : reachable initial
| reachable_started p d : reachable (state (startCamera p d initial))
| reachable_event d e s : reachable s -> reachable (fst (dispatch d e s)).

(** The constraint sets applied to the track by a list of runs. *)
Definition applied (runs : list (list DeviceCall)) : list ConstraintSet :=
  flat_map (fun call => match call with
                        | ApplyConstraints c => [c]
                        | SetOptions _ => []
                        end) (concat runs).

End CameraLife.

(* ================================================================== *)
(** ** More concrete inputs                                             *)
(* ================================================================== *)

Module Scenarios.
Import JS Web Submission Exchange Examples.

(** A world whose endpoint answers 200 with the body [null]. *)
Definition null_body : World SafeInteger := answering api (respond 200 (Fulfilled JNull)).

(** A failed upload, left with the error on screen. *)
Definition after_failed_upload : App.State SafeInteger :=
  App.settled (uploading ring) (App.handleUploadSubmit offline (uploading ring)).

(** A platform with a rear camera that works. *)
Definition working : CameraLife.Platform :=
  {| CameraLife.enumerateDevices :=
       CameraLife.Resolved ["audioinput"; "videoinput"];
     CameraLife.getUserMedia := CameraLife.Resolved tt;
     CameraLife.videoRef := true;
     CameraLife.srcObject_is_stream := false;
     CameraLife.play := CameraLife.Resolved tt;
     CameraLife.ImageCapture_in_window := true |}.

(** A platform with a microphone only. *)
Definition no_camera : CameraLife.Platform :=
  {| CameraLife.enumerateDevices := CameraLife.Resolved ["audioinput"];
     CameraLife.getUserMedia := CameraLife.Resolved tt;
     CameraLife.videoRef := true;
     CameraLife.srcObject_is_stream := false;
     CameraLife.play := CameraLife.Resolved tt;
     CameraLife.ImageCapture_in_window := true |}.

(** A platform whose user refuses the camera. *)
Definition refused : CameraLife.Platform :=
  {| CameraLife.enumerateDevices := CameraLife.Resolved ["videoinput"];
     CameraLife.getUserMedia :=
       CameraLife.Failed (CameraLife.ErrorNamed "NotAllowedError" "Permission denied");
     CameraLife.videoRef := true;
     CameraLife.srcObject_is_stream := true;
     CameraLife.play := CameraLife.Resolved tt;
     CameraLife.ImageCapture_in_window := false |}.

(** A platform whose browser refuses to play the video. *)
Definition autoplay_blocked : CameraLife.Platform :=
  {| CameraLife.enumerateDevices := CameraLife.Resolved ["videoinput"];
     CameraLife.getUserMedia := CameraLife.Resolved tt;
     CameraLife.videoRef := true;
     CameraLife.srcObject_is_stream := false;
     CameraLife.play :=
       CameraLife.Failed (CameraLife.ErrorNamed "NotAllowedError" "play() failed");
     CameraLife.ImageCapture_in_window := false |}.

(** The refs before the camera has started. *)
Definition unstarted : Camera.Device :=
  {| Camera.trackRef := false;
     Camera.imageCaptureRef := false;
     Camera.supports := fun _ => true |}.

(** A running camera in macro mode. *)
Definition macro_mode : Camera.State :=
  {| Camera.hasPermission := true;
     Camera.isMacroMode := true;
     Camera.isFlashOn := false;
     Camera.error := "";
     Camera.exposureMode := "manual";
     Camera.exposureTime := 7.3%Q;
     Camera.exposureCompensation := 0%Q;
     Camera.iso := 800%Q |}.

End Scenarios.

(* ================================================================== *)
(** ** Facts about the submission code                                  *)
(* ================================================================== *)

Module SubmissionFacts.
Import JS Web Submission Exchange.

Section WithNumbers.
Context {N : Type} `{JsNumber N} `{JsEngine}.

(** The failure block throws the error described by [response_error]. *)
Lemma reject_response_throws (A : Type) (response : Response N) log :
  reject_response (A := A) response log
  = (Rejected (ErrorObject (response_error response)), log).
Proof.
  unfold reject_response, response_error, is_object, error_data.
  destruct (json response) as [v | e]; cbn.
  - destruct (ToBoolean v && typeof_object v);
      [destruct (errorMessages v); reflexivity |].
    destruct (status response >=? 500); reflexivity.
  - destruct (status response >=? 500); reflexivity.
Qed.

(** Without a base URL the [try] block throws before any [fetch]. *)
Lemma submit_unconfigured (w : World N) finger file log :
  configured w = false ->
  submit w finger file log
  = (Rejected (ErrorObject "API base URL is not configured"), log).
Proof.
  unfold configured, submit. intros Hc.
  destruct (VITE_API_BASE_URL w) as [b |]; [| reflexivity].
  rewrite Hc. reflexivity.
Qed.

(** With a base URL exactly one request is posted, and the block ends as
    the answer to it dictates. *)
Lemma submit_configured (w : World N) finger file baseUrl log :
  VITE_API_BASE_URL w = Some baseUrl ->
  truthy_string baseUrl = true ->
  submit w finger file log
  = (match fetch w (post_request baseUrl finger file) with
     | Fulfilled response => response_outcome response
     | Rejected e => Rejected e
     end,
     log ++ [post_request baseUrl finger file]).
Proof.
  intros Hb Ht. unfold submit. rewrite Hb, Ht. cbn.
  unfold bind, await_fetch, append, post_request. cbn.
  destruct (fetch w _) as [response | e]; [| reflexivity].
  unfold response_outcome.
  destruct (ok response); cbn.
  - unfold await, ret. destruct (json response); reflexivity.
  - apply reject_response_throws.
Qed.

Lemma submit_answered (w : World N) finger file response log :
  answered w finger file response ->
  exists req,
    submit w finger file log = (response_outcome response, log ++ [req]) /\
    body req = Some [("finger_type", FieldString (FingerType_value finger));
                     ("original_image", FieldFile file)].
Proof.
  intros (baseUrl & Hb & Ht & Hf).
  exists (post_request baseUrl finger file). split; [| reflexivity].
  rewrite (submit_configured _ _ _ _ _ Hb Ht), Hf. reflexivity.
Qed.

(** Decoding a captured frame makes one local request. *)
Lemma captured_file_log (w : World N) imageData :
  captured_file w imageData []
  = (match decode w imageData with
     | Fulfilled b => Fulfilled (png_file b)
     | Rejected e => Rejected e
     end, [data_request imageData]).
Proof.
  unfold captured_file, decode, bind, await_fetch, await, ret, data_request. cbn.
  destruct (fetch w _) as [r | e]; [| reflexivity].
  destruct (blob r); reflexivity.
Qed.

(** The whole [try] block of [handleCapture]. *)
Lemma capture_try (w : World N) imageData finger :
  run (file <- captured_file w imageData ;; submit w finger file)%async
  = match decode w imageData with
    | Fulfilled b => submit w finger (png_file b) [data_request imageData]
    | Rejected e => (Rejected e, [data_request imageData])
    end.
Proof.
  unfold run, bind. rewrite captured_file_log.
  destruct (decode w imageData); reflexivity.
Qed.

(** [failure] lists exactly the ways the [try] block of a submission
    rejects. *)
Lemma submit_rejects_iff (w : World N) finger file err log :
  fst (submit w finger file log) = Rejected err <-> failure w finger file err.
Proof.
  split.
  - intros Hr. destruct (configured w) eqn:Hc.
    + unfold configured in Hc.
      destruct (VITE_API_BASE_URL w) as [b |] eqn:Hb; [| discriminate].
      rewrite (submit_configured _ _ _ _ _ Hb Hc) in Hr. cbn in Hr.
      destruct (fetch w (post_request b finger file)) as [response | e] eqn:Hf.
      * apply (remote_error _ _ _ response); [| exact Hr].
        exists b. auto.
      * injection Hr as ->. eapply network_error; eauto.
    + rewrite (submit_unconfigured _ _ _ _ Hc) in Hr. cbn in Hr.
      injection Hr as <-. constructor. exact Hc.
  - intros [Hc | b e Hb Ht Hf | response e (b & Hb & Ht & Hf) Ho].
    + rewrite (submit_unconfigured _ _ _ _ Hc). reflexivity.
    + rewrite (submit_configured _ _ _ _ _ Hb Ht), Hf. reflexivity.
    + rewrite (submit_configured _ _ _ _ _ Hb Ht), Hf. exact Ho.
Qed.

End WithNumbers.

(** The messages the program itself throws are not taken for network
    errors, and are not empty. *)
Lemma catch_message_own (m : string) :
  includes "fetch" m = false ->
  catch_message (ErrorObject m) = m.
Proof. intros Hm. cbn. rewrite Hm. reflexivity. Qed.

Lemma catch_message_nonempty (err : Thrown) :
  err <> ErrorObject "" -> truthy_string (catch_message err) = true.
Proof.
  destruct err as [m |]; [| reflexivity].
  intros Hne. cbn. destruct (includes "fetch" m); [reflexivity |].
  destruct m; [congruence | reflexivity].
Qed.

End SubmissionFacts.

(* ================================================================== *)
(** ** Facts about the capture flow controllers                         *)
(* ================================================================== *)

Module AppFacts.
Import JS Web Submission Exchange SubmissionFacts.

Section WithNumbers.
Context {N : Type} `{JsNumber N} `{JsEngine}.

(** [handleUploadSubmit] with a file selected: the frame the [try] block
    leads to, after the loading frame when the block has suspended. *)
Lemma handleUploadSubmit_selected (w : World N) (s : App.State N) file :
  App.selectedFile s = Some file ->
  App.handleUploadSubmit w s
  = let loading := App.setError "" (App.setCurrentView App.v_loading s) in
    let final :=
      match fst (submit w (App.selectedFinger s) file []) with
      | Fulfilled data =>
          App.setCurrentView App.v_result (App.setResult data loading)
      | Rejected err =>
          App.setCurrentView App.v_upload
            (App.setError (catch_message err) loading)
      end in
    {| App.frames :=
         if awaited (snd (submit w (App.selectedFinger s) file []))
         then [loading; final] else [final];
       App.sent := snd (submit w (App.selectedFinger s) file []) |}.
Proof.
  intros Hf. unfold App.handleUploadSubmit, run. rewrite Hf.
  destruct (submit w (App.selectedFinger s) file []); reflexivity.
Qed.

(** The state [handleUploadSubmit] ends in. *)
Lemma handleUploadSubmit_settled (w : World N) (s : App.State N) file :
  App.selectedFile s = Some file ->
  App.settled s (App.handleUploadSubmit w s)
  = let loading := App.setError "" (App.setCurrentView App.v_loading s) in
    match fst (submit w (App.selectedFinger s) file []) with
    | Fulfilled data =>
        App.setCurrentView App.v_result (App.setResult data loading)
    | Rejected err =>
        App.setCurrentView App.v_upload
          (App.setError (catch_message err) loading)
    end.
Proof.
  intros Hf. rewrite (handleUploadSubmit_selected _ _ _ Hf). cbv zeta.
  unfold App.settled. cbn [App.frames].
  destruct (awaited _); reflexivity.
Qed.

(** A configured submission suspends; one without base URL does not. *)
Lemma submit_awaited (w : World N) finger file :
  awaited (snd (submit w finger file [])) = configured w.
Proof.
  destruct (configured w) eqn:Hc.
  - unfold configured in Hc.
    destruct (VITE_API_BASE_URL w) as [b |] eqn:Hb; [| discriminate].
    rewrite (submit_configured _ _ _ _ _ Hb Hc). reflexivity.
  - rewrite (submit_unconfigured _ _ _ _ Hc). reflexivity.
Qed.

(** What a submission posts: one form when the base URL is configured,
    nothing otherwise. *)
Lemma submit_fields (w : World N) finger file log :
  finger_type_fields (snd (submit w finger file log))
  = finger_type_fields log ++
    (if configured w then [Some (FieldString (FingerType_value finger))] else []).
Proof.
  destruct (configured w) eqn:Hc.
  - unfold configured in Hc.
    destruct (VITE_API_BASE_URL w) as [b |] eqn:Hb; [| discriminate].
    rewrite (submit_configured _ _ _ _ _ Hb Hc). cbn [snd].
    unfold finger_type_fields, forms. rewrite flat_map_app, map_app.
    reflexivity.
  - rewrite (submit_unconfigured _ _ _ _ Hc). cbn [snd].
    rewrite app_nil_r. reflexivity.
Qed.

Lemma capture_fields (w : World N) imageData finger :
  finger_type_fields
    (snd (run (file <- captured_file w imageData ;; submit w finger file)%async))
  = match decode w imageData with
    | Fulfilled _ =>
        if configured w then [Some (FieldString (FingerType_value finger))] else []
    | Rejected _ => []
    end.
Proof.
  rewrite capture_try. destruct (decode w imageData) as [b | e].
  - rewrite submit_fields. reflexivity.
  - reflexivity.
Qed.

Lemma App_handleCapture_sent (w : World N) imageData (s : App.State N) :
  App.sent (App.handleCapture w imageData s)
  = snd (run (file <- captured_file w imageData ;;
              submit w (App.selectedFinger s) file)%async).
Proof.
  unfold App.handleCapture.
  destruct (run _); reflexivity.
Qed.

Lemma AppLive_handleCapture_sent (w : World N) imageData (s : AppLive.State N) :
  AppLive.sent (AppLive.handleCapture w imageData s)
  = snd (run (file <- captured_file w imageData ;;
              submit w (AppLive.selectedFinger s) file)%async).
Proof.
  unfold AppLive.handleCapture.
  destruct (run _); reflexivity.
Qed.

(** Choosing a file, accepted or not, leaves the selected finger alone. *)
Lemma handleFileSelect_finger files (s : App.State N) :
  App.selectedFinger (App.handleFileSelect files s) = App.selectedFinger s.
Proof.
  unfold App.handleFileSelect.
  destruct (App.first_file files) as [file |]; [| reflexivity].
  destruct (startsWith "image/" (type file)); reflexivity.
Qed.

(** C1. For each of the five finger types: once the user has selected it
    and proceeds to submission, every form posted to the endpoint has the
    string of the selected finger as its [finger_type] field.  On the
    upload path (the finger is selected, a file is chosen, the form is
    submitted) exactly one such form is posted when the base URL is
    configured; on the live path of both controllers (the finger is
    selected, the user continues to the camera, a frame is captured)
    exactly one such form is posted when moreover the frame decodes.  No
    form is posted otherwise. *)
Theorem selected_finger_is_submitted (f : FingerType) (w : World N) :
  In f fingerOptions /\
  (forall (s : App.State N) files,
      App.submit_disabled (App.handleFileSelect files (App.setSelectedFinger f s)) = false ->
      finger_type_fields
        (App.sent (App.handleUploadSubmit w
                     (App.handleFileSelect files (App.setSelectedFinger f s))))
      = if configured w then [Some (FieldString (FingerType_value f))] else []) /\
  (forall (s : App.State N) imageData,
      finger_type_fields
        (App.sent (App.handleCapture w imageData
                     (App.handleProceedToCamera (App.setSelectedFinger f s))))
      = match decode w imageData with
        | Fulfilled _ =>
            if configured w then [Some (FieldString (FingerType_value f))] else []
        | Rejected _ => []
        end) /\
  (forall (s : AppLive.State N) imageData,
      finger_type_fields
        (AppLive.sent (AppLive.handleCapture w imageData
                         (AppLive.handleProceedToCamera (AppLive.setSelectedFinger f s))))
      = match decode w imageData with
        | Fulfilled _ =>
            if configured w then [Some (FieldString (FingerType_value f))] else []
        | Rejected _ => []
        end).
Proof.
  split; [destruct f; cbn; tauto |].
  split; [| split].
  - intros s files Hen.
    set (s' := App.handleFileSelect files (App.setSelectedFinger f s)) in *.
    unfold App.submit_disabled in Hen.
    destruct (App.selectedFile s') as [file |] eqn:Hfile; [| discriminate].
    rewrite (handleUploadSubmit_selected _ _ _ Hfile). cbn [App.sent].
    rewrite submit_fields. subst s'. rewrite handleFileSelect_finger.
    reflexivity.
  - intros s imageData. rewrite App_handleCapture_sent. apply capture_fields.
  - intros s imageData. rewrite AppLive_handleCapture_sent. apply capture_fields.
Qed.

Lemma App_handleCapture_run (w : World N) imageData (s : App.State N) :
  App.handleCapture w imageData s
  = let loading :=
      App.setError ""
        (App.setCurrentView App.v_loading (App.setCapturedImage imageData s)) in
    let r := run (file <- captured_file w imageData ;;
                  submit w (App.selectedFinger s) file)%async in
    {| App.frames :=
         [loading;
          match fst r with
          | Fulfilled data =>
              App.setCurrentView App.v_result (App.setResult data loading)
          | Rejected err =>
              App.setCurrentView App.v_camera
                (App.setError (catch_message err) loading)
          end];
       App.sent := snd r |}.
Proof.
  unfold App.handleCapture. destruct (run _); reflexivity.
Qed.

Lemma AppLive_handleCapture_run (w : World N) imageData (s : AppLive.State N) :
  AppLive.handleCapture w imageData s
  = let loading :=
      AppLive.setError ""
        (AppLive.setCurrentView AppLive.v_loading
           (AppLive.setCapturedImage imageData s)) in
    let r := run (file <- captured_file w imageData ;;
                  submit w (AppLive.selectedFinger s) file)%async in
    {| AppLive.frames :=
         [loading;
          match fst r with
          | Fulfilled data =>
              AppLive.setCurrentView AppLive.v_result
                (AppLive.setResult data loading)
          | Rejected err =>
              AppLive.setCurrentView AppLive.v_camera
                (AppLive.setError (catch_message err) loading)
          end];
       AppLive.sent := snd r |}.
Proof.
  unfold AppLive.handleCapture. destruct (run _); reflexivity.
Qed.

(** How the [try] block of a capture ends when the frame decodes. *)
Lemma capture_try_decoded (w : World N) imageData finger b :
  decode w imageData = Fulfilled b ->
  run (file <- captured_file w imageData ;; submit w finger file)%async
  = submit w finger (png_file b) [data_request imageData].
Proof. intros Hd. rewrite capture_try, Hd. reflexivity. Qed.

Lemma submit_answered_outcome (w : World N) finger file response log :
  answered w finger file response ->
  fst (submit w finger file log) = response_outcome response.
Proof.
  intros Ha. destruct (submit_answered w finger file response log Ha)
    as (req & -> & _). reflexivity.
Qed.

(** The retake handler, on any state. *)
Lemma handleRetake_clears (s : App.State N) :
  App.handleRetake s
  = {| App.currentView := App.v_method_selection;
       App.selectedFinger := App.selectedFinger s;
       App.capturedImage := "";
       App.selectedFile := None;
       App.result := JNull;
       App.error := "" |}.
Proof. reflexivity. Qed.

(** In the controller without the upload path, retake leads to the
    finger selection, which is that controller's first view. *)
Lemma live_handleRetake_clears (s : AppLive.State N) :
  AppLive.handleRetake s
  = {| AppLive.currentView := AppLive.v_selection;
       AppLive.selectedFinger := AppLive.selectedFinger s;
       AppLive.capturedImage := "";
       AppLive.result := JNull;
       AppLive.error := "" |}
  /\ AppLive.currentView (N := N) AppLive.initial = AppLive.v_selection.
Proof. split; reflexivity. Qed.

(** An answered submission is a configured one. *)
Lemma answered_configured (w : World N) finger file response :
  answered w finger file response -> configured w = true.
Proof.
  intros (b & Hb & Ht & _). unfold configured. rewrite Hb. exact Ht.
Qed.

(** A body of the declared type is truthy and its result block
    evaluates. *)
Lemma ApiResponse_renders (v : Json N) :
  is_ApiResponse v = true ->
  ToBoolean v = true /\ result_block_evaluates v = true.
Proof.
  unfold is_ApiResponse, result_block_evaluates, is_string_entry.
  destruct v as [| b | n | str | items | entries]; cbn [get_entry];
    try discriminate.
  intros Hv. apply andb_prop in Hv. destruct Hv as [_ Hdata].
  split; [reflexivity |].
  destruct (option_map snd (find _ entries)) as [data |]; [| discriminate].
  cbn [forallb] in Hdata.
  apply andb_prop in Hdata. destruct Hdata as [Hfinger Hrest].
  apply andb_prop in Hrest. destruct Hrest as [_ Hrest].
  apply andb_prop in Hrest. destruct Hrest as [_ Hrest].
  apply andb_prop in Hrest. destruct Hrest as [_ Hrest].
  apply andb_prop in Hrest. destruct Hrest as [Hcreated _].
  destruct data as [| b | n | str | items | fields]; cbn [get_entry] in *;
    try discriminate.
  destruct (option_map snd (find _ fields)) as [[| | | finger | |] |];
    try discriminate.
  destruct (option_map snd (find _ fields)) as [[| | | created | |] |];
    try discriminate.
  reflexivity.
Qed.

(** C2. When the endpoint answers a submission with a 2xx response whose
    body parses to an [ApiResponse], the handler commits the loading view
    and then the result view, with the result set to the parsed body and
    the result block on screen; this holds for an uploaded file and for
    a captured frame.  The "Back to Start" button of that view calls
    [handleRetake], which leads to the method selection with the
    captured image, the selected file, the result and the error all
    cleared. *)
Theorem success_shows_result_and_retake_clears (w : World N) :
  (forall (s : App.State N) file response data,
      App.selectedFile s = Some file ->
      answered w (App.selectedFinger s) file response ->
      ok response = true ->
      json response = Fulfilled data ->
      is_ApiResponse data = true ->
      let r := App.handleUploadSubmit w s in
      map App.currentView (App.frames r) = [App.v_loading; App.v_result] /\
      App.result (App.settled s r) = data /\
      App.retake_offered (App.settled s r) = true /\
      App.dispatch w App.ClickBackToStart (App.settled s r)
      = App.commit (App.handleRetake (App.settled s r)) /\
      App.handleRetake (App.settled s r)
      = {| App.currentView := App.v_method_selection;
           App.selectedFinger := App.selectedFinger s;
           App.capturedImage := "";
           App.selectedFile := None;
           App.result := JNull;
           App.error := "" |}) /\
  (forall (s : App.State N) imageData b response data,
      decode w imageData = Fulfilled b ->
      answered w (App.selectedFinger s) (png_file b) response ->
      ok response = true ->
      json response = Fulfilled data ->
      is_ApiResponse data = true ->
      let r := App.handleCapture w imageData s in
      map App.currentView (App.frames r) = [App.v_loading; App.v_result] /\
      App.result (App.settled s r) = data /\
      App.retake_offered (App.settled s r) = true /\
      App.dispatch w App.ClickBackToStart (App.settled s r)
      = App.commit (App.handleRetake (App.settled s r)) /\
      App.handleRetake (App.settled s r)
      = {| App.currentView := App.v_method_selection;
           App.selectedFinger := App.selectedFinger s;
           App.capturedImage := "";
           App.selectedFile := None;
           App.result := JNull;
           App.error := "" |}).
Proof.
  assert (Hback : forall st : App.State N,
             App.currentView st = App.v_result ->
             is_ApiResponse (App.result st) = true ->
             App.retake_offered st = true /\
             App.dispatch w App.ClickBackToStart st
             = App.commit (App.handleRetake st)).
  { intros st Hv Hapi. destruct (ApiResponse_renders _ Hapi) as [Ht He].
    assert (Ho : App.retake_offered st = true)
      by (unfold App.retake_offered; rewrite Ht, He; reflexivity).
    split; [exact Ho |]. unfold App.dispatch. rewrite Hv, Ho. reflexivity. }
  split.
  - intros s file response data Hfile Ha Hok Hj Hapi r. subst r.
    rewrite (handleUploadSubmit_settled _ _ _ Hfile).
    rewrite (handleUploadSubmit_selected _ _ _ Hfile). cbv zeta.
    rewrite submit_awaited, (answered_configured _ _ _ _ Ha).
    rewrite (submit_answered_outcome _ _ _ _ _ Ha).
    unfold response_outcome. rewrite Hok, Hj.
    split; [reflexivity |]. split; [reflexivity |].
    destruct (Hback (App.setCurrentView App.v_result
                       (App.setResult data
                          (App.setError "" (App.setCurrentView App.v_loading s))))
                eq_refl Hapi) as [Ho Hd].
    split; [exact Ho |]. split; [exact Hd | reflexivity].
  - intros s imageData b response data Hd Ha Hok Hj Hapi r. subst r.
    rewrite App_handleCapture_run, (capture_try_decoded _ _ _ _ Hd).
    cbv zeta. rewrite (submit_answered_outcome _ _ _ _ _ Ha).
    unfold response_outcome. rewrite Hok, Hj.
    split; [reflexivity |]. split; [reflexivity |].
    unfold App.settled. cbn [App.frames last].
    destruct (Hback (App.setCurrentView App.v_result
                       (App.setResult data
                          (App.setError ""
                             (App.setCurrentView App.v_loading
                                (App.setCapturedImage imageData s)))))
                eq_refl Hapi) as [Ho Hd'].
    split; [exact Ho |]. split; [exact Hd' | reflexivity].
Qed.

(** C5, as amended.  Whatever makes a submission fail (the missing base
    URL, a request without answer, a failure response, and for a capture
    a frame that does not decode), the handler ends in the view the
    submission came from: the upload view for an uploaded file, the
    camera view for a captured frame.  The loading view is committed
    before it, except for an upload without base URL: there the handler
    fails before it first suspends and the upload view with the error is
    the only frame.  The error cell holds the message of the error
    thrown, the network message when that message contains "fetch", and
    the generic message when the value thrown is no error; that view
    displays it, unless it is the empty string. *)
Theorem failure_returns_to_acquisition_view (w : World N) :
  (forall (s : App.State N) file err,
      App.selectedFile s = Some file ->
      failure w (App.selectedFinger s) file err ->
      let r := App.handleUploadSubmit w s in
      let shown :=
        match err with
        | ErrorObject message =>
            if includes "fetch" message
            then "Network error. Please check your connection."
            else message
        | NotAnError => "An error occurred. Please try again."
        end in
      map App.currentView (App.frames r)
      = (if configured w then [App.v_loading; App.v_upload] else [App.v_upload]) /\
      (configured w = false -> shown = "API base URL is not configured") /\
      App.error (App.settled s r) = shown /\
      (err <> ErrorObject "" ->
       App.displayed_error (App.settled s r) = Some shown)) /\
  (forall (s : App.State N) imageData err,
      decode w imageData = Rejected err \/
      (exists b, decode w imageData = Fulfilled b /\
                 failure w (App.selectedFinger s) (png_file b) err) ->
      let r := App.handleCapture w imageData s in
      let shown :=
        match err with
        | ErrorObject message =>
            if includes "fetch" message
            then "Network error. Please check your connection."
            else message
        | NotAnError => "An error occurred. Please try again."
        end in
      map App.currentView (App.frames r) = [App.v_loading; App.v_camera] /\
      App.error (App.settled s r) = shown /\
      (err <> ErrorObject "" ->
       App.displayed_error (App.settled s r) = Some shown)).
Proof.
  split.
  - intros s file err Hfile Hfail r shown. subst r shown.
    fold (catch_message err).
    assert (Hunconf : configured w = false ->
                      err = ErrorObject "API base URL is not configured").
    { intros Hc. destruct Hfail as [_ | b e Hb Ht _ | response e Ha _].
      - reflexivity.
      - unfold configured in Hc. rewrite Hb, Ht in Hc. discriminate Hc.
      - rewrite (answered_configured _ _ _ _ Ha) in Hc. discriminate Hc. }
    apply (submit_rejects_iff w _ _ _ []) in Hfail.
    rewrite (handleUploadSubmit_settled _ _ _ Hfile).
    rewrite (handleUploadSubmit_selected _ _ _ Hfile). cbv zeta.
    rewrite submit_awaited, Hfail.
    split; [destruct (configured w); reflexivity |].
    split; [intros Hc; rewrite (Hunconf Hc); reflexivity |].
    split; [reflexivity |].
    intros Hne. unfold App.displayed_error.
    cbn [App.currentView App.error App.setCurrentView App.setError].
    rewrite (catch_message_nonempty _ Hne). reflexivity.
  - intros s imageData err Hcause r shown. subst r shown.
    fold (catch_message err).
    rewrite App_handleCapture_run. cbv zeta.
    assert (Hr : fst (run (file <- captured_file w imageData ;;
                           submit w (App.selectedFinger s) file)%async)
                 = Rejected err).
    { rewrite capture_try.
      destruct Hcause as [Hd | (b & Hd & Hfail)]; rewrite Hd.
      - reflexivity.
      - apply submit_rejects_iff. exact Hfail. }
    rewrite Hr. split; [reflexivity |]. split; [reflexivity |].
    intros Hne. unfold App.displayed_error, App.settled.
    cbn [last App.frames App.currentView App.error App.setCurrentView App.setError].
    rewrite (catch_message_nonempty _ Hne). reflexivity.
Qed.

(** C6. Without a base URL (undefined, or the empty string) a submission
    fails before the endpoint is contacted: an upload makes no request at
    all, a capture makes only the local request that decodes its frame
    and posts no form.  The error set and displayed is "API base URL is
    not configured"; for a capture this is so when the frame decodes, the
    decoding being the one step of the [try] block that precedes the
    check. *)
Theorem missing_base_url_fails_locally (w : World N) :
  configured w = false ->
  (forall (s : App.State N) file,
      App.selectedFile s = Some file ->
      let r := App.handleUploadSubmit w s in
      App.sent r = [] /\
      App.error (App.settled s r) = "API base URL is not configured" /\
      App.displayed_error (App.settled s r)
      = Some "API base URL is not configured") /\
  (forall (s : App.State N) imageData,
      let r := App.handleCapture w imageData s in
      App.sent r = [data_request imageData] /\
      forms (App.sent r) = [] /\
      forall b, decode w imageData = Fulfilled b ->
        App.error (App.settled s r) = "API base URL is not configured" /\
        App.displayed_error (App.settled s r)
        = Some "API base URL is not configured") /\
  (forall (s : AppLive.State N) imageData,
      let r := AppLive.handleCapture w imageData s in
      AppLive.sent r = [data_request imageData] /\
      forms (AppLive.sent r) = [] /\
      forall b, decode w imageData = Fulfilled b ->
        AppLive.error (AppLive.settled s r) = "API base URL is not configured" /\
        AppLive.displayed_error (AppLive.settled s r)
        = Some "API base URL is not configured").
Proof.
  intros Hc. split; [| split].
  - intros s file Hfile r. subst r.
    rewrite (handleUploadSubmit_selected _ _ _ Hfile). cbv zeta.
    rewrite (submit_unconfigured _ _ _ _ Hc). repeat split.
  - intros s imageData r. subst r.
    rewrite App_handleCapture_run, capture_try. cbv zeta.
    destruct (decode w imageData) as [b | e].
    + rewrite (submit_unconfigured _ _ _ _ Hc).
      split; [reflexivity | split; [reflexivity |]].
      intros b' _. split; reflexivity.
    + split; [reflexivity | split; [reflexivity |]].
      intros b' Hb'. discriminate.
  - intros s imageData r. subst r.
    rewrite AppLive_handleCapture_run, capture_try. cbv zeta.
    destruct (decode w imageData) as [b | e].
    + rewrite (submit_unconfigured _ _ _ _ Hc).
      split; [reflexivity | split; [reflexivity |]].
      intros b' _. split; reflexivity.
    + split; [reflexivity | split; [reflexivity |]].
      intros b' Hb'. discriminate.
Qed.

(** C7. In the upload view, submitting while no file is selected makes
    no request, commits a single frame that is still the upload view (the
    loading view is never entered), and displays "Please select an image
    file". *)
Theorem submit_without_file_is_rejected (w : World N) (s : App.State N) :
  App.currentView s = App.v_upload ->
  App.selectedFile s = None ->
  let r := App.handleUploadSubmit w s in
  App.sent r = [] /\
  App.frames r = [App.setError "Please select an image file" s] /\
  map App.currentView (App.frames r) = [App.v_upload] /\
  App.displayed_error (App.settled s r) = Some "Please select an image file".
Proof.
  intros Hv Hfile r. subst r. unfold App.handleUploadSubmit. rewrite Hfile.
  cbn. unfold App.displayed_error. cbn. rewrite Hv. repeat split.
Qed.

(** The values that pass [errorData && typeof errorData === 'object']
    are the objects and the arrays. *)
Lemma is_object_iff (v : Json N) :
  is_object v = true <->
  (exists entries, v = JObj entries) \/ (exists items, v = JArr items).
Proof.
  unfold is_object. split.
  - destruct v; cbn; rewrite ?andb_false_r; try discriminate; eauto.
  - intros [(entries & ->) | (items & ->)]; reflexivity.
Qed.

(** Only the finger selector changes the selected finger. *)
Lemma dispatch_keeps_finger (w : World N) e (s : App.State N) :
  (forall f, e <> App.ChangeFinger f) ->
  App.selectedFinger (App.settled s (App.dispatch w e s)) = App.selectedFinger s.
Proof.
  intros He. unfold App.dispatch.
  destruct (App.currentView s), e; try reflexivity;
    try (exfalso; eapply He; reflexivity).
  - rewrite App_handleCapture_run. cbv zeta. destruct (fst _); reflexivity.
  - cbn. apply handleFileSelect_finger.
  - destruct (App.submit_disabled s); [reflexivity |].
    destruct (App.selectedFile s) as [file |] eqn:Hfile.
    + rewrite (handleUploadSubmit_settled _ _ _ Hfile). cbv zeta.
      destruct (fst _); reflexivity.
    + unfold App.handleUploadSubmit. rewrite Hfile. reflexivity.
  - destruct (App.retake_offered s); reflexivity.
Qed.

(** A failure response ends all three handlers with the message thrown
    for it, unless that message is empty or contains "fetch". *)
Lemma failure_response_shown (w : World N) (response : Response N) :
  ok response = false ->
  truthy_string (response_error response) = true ->
  includes "fetch" (response_error response) = false ->
  failure_message_shown w response (response_error response).
Proof.
  intros Hok Hne Hinc.
  assert (Hout : response_outcome response
                 = Rejected (ErrorObject (response_error response))).
  { unfold response_outcome. rewrite Hok. reflexivity. }
  pose proof (catch_message_own _ Hinc) as Hcm.
  split; [| split].
  - intros s file Hfile Ha r. subst r.
    rewrite (handleUploadSubmit_settled _ _ _ Hfile). cbv zeta.
    rewrite (submit_answered_outcome _ _ _ _ _ Ha), Hout.
    unfold App.displayed_error.
    cbn [App.error App.currentView App.setCurrentView App.setError].
    rewrite Hcm, Hne. split; reflexivity.
  - intros s imageData b Hd Ha r. subst r.
    rewrite App_handleCapture_run, (capture_try_decoded _ _ _ _ Hd). cbv zeta.
    rewrite (submit_answered_outcome _ _ _ _ _ Ha), Hout.
    unfold App.displayed_error, App.settled.
    cbn [last App.frames App.error App.currentView App.setCurrentView App.setError].
    rewrite Hcm, Hne. split; reflexivity.
  - intros s imageData b Hd Ha r. subst r.
    rewrite AppLive_handleCapture_run, (capture_try_decoded _ _ _ _ Hd). cbv zeta.
    rewrite (submit_answered_outcome _ _ _ _ _ Ha), Hout.
    unfold AppLive.displayed_error, AppLive.settled.
    cbn [last AppLive.frames AppLive.error AppLive.currentView
         AppLive.setCurrentView AppLive.setError].
    rewrite Hcm, Hne. split; reflexivity.
Qed.

(** C4, as amended.  For a response outside 200-299 whose body does not
    parse, or parses to a value that is neither an object nor an array
    (null, a boolean, a number, a string: the values that fail the test
    [errorData && typeof errorData === 'object']), the three handlers set
    and display "Server error. Please try again later." when the status
    is at least 500, and "Failed to process fingerprint. Please try
    again." when it is below 500, which includes the statuses from 400
    to 498. *)
Theorem unparsable_failure_message (w : World N) (response : Response N) :
  ok response = false ->
  is_object (error_data response) = false ->
  (500 <= status response ->
   failure_message_shown w response "Server error. Please try again later.") /\
  (status response < 500 ->
   failure_message_shown w response
     "Failed to process fingerprint. Please try again.").
Proof.
  intros Hok Hobj.
  assert (Hre : response_error response
                = if status response >=? 500
                  then "Server error. Please try again later."
                  else "Failed to process fingerprint. Please try again.").
  { unfold response_error. rewrite Hobj. reflexivity. }
  split; intros Hs.
  - assert (Hge : (status response >=? 500) = true)
      by (rewrite Z.geb_leb; apply Z.leb_le; exact Hs).
    rewrite Hge in Hre. rewrite <- Hre.
    apply failure_response_shown;
      [exact Hok | rewrite Hre; reflexivity | rewrite Hre; reflexivity].
  - assert (Hge : (status response >=? 500) = false)
      by (rewrite Z.geb_leb; apply Z.leb_gt; exact Hs).
    rewrite Hge in Hre. rewrite <- Hre.
    apply failure_response_shown;
      [exact Hok | rewrite Hre; reflexivity | rewrite Hre; reflexivity].
Qed.

(** The joined message of an object, entry by entry. *)
Lemma errorMessages_object (entries : list (string * Json N)) :
  errorMessages (JObj entries)
  = option_map (String.concat ". ")
      (sequence
         (map (fun entry =>
                 match snd entry with
                 | JArr items => Array_join items ", "
                 | _ => ToString (snd entry)
                 end) entries)).
Proof.
  unfold errorMessages, Object_entries. do 2 f_equal.
  apply map_ext. intros [key value]. reflexivity.
Qed.

(** C3, as amended.  For a response outside 200-299 whose body parses to
    an object, convert the value of each entry, an array by joining it
    with ", " and any other value by [String]; when no conversion throws,
    let [m] be the converted values joined with ". ".  When [m] is empty
    the three handlers set and display "Failed to process fingerprint";
    when [m] is not empty and does not contain "fetch" they set and
    display [m].  The body [{"field": ["error one", "error two"]}] gives
    exactly "error one, error two". *)
Theorem structured_failure_message (w : World N) (response : Response N)
  (entries : list (string * Json N)) (converted : list string) :
  ok response = false ->
  json response = Fulfilled (JObj entries) ->
  sequence
    (map (fun entry =>
            match snd entry with
            | JArr items => Array_join items ", "
            | _ => ToString (snd entry)
            end) entries) = Some converted ->
  let m := String.concat ". " converted in
  (m = "" -> failure_message_shown w response "Failed to process fingerprint") /\
  (m <> "" -> includes "fetch" m = false -> failure_message_shown w response m) /\
  (entries = [("field", JArr [JStr "error one"; JStr "error two"])] ->
   failure_message_shown w response "error one, error two").
Proof.
  intros Hok Hj Hconv m.
  assert (Hed : error_data response = JObj entries)
    by (unfold error_data; rewrite Hj; reflexivity).
  assert (Hm : errorMessages (error_data response) = Some m)
    by (rewrite Hed, errorMessages_object, Hconv; reflexivity).
  assert (Hre : response_error response
                = if truthy_string m then m else "Failed to process fingerprint").
  { unfold response_error. rewrite Hm, Hed. reflexivity. }
  assert (Hempty : m = "" ->
                   failure_message_shown w response "Failed to process fingerprint").
  { intros H1. rewrite H1 in Hre. cbn in Hre. rewrite <- Hre.
    apply failure_response_shown;
      [exact Hok | rewrite Hre; reflexivity | rewrite Hre; reflexivity]. }
  assert (Hfull : m <> "" -> includes "fetch" m = false ->
                  failure_message_shown w response m).
  { intros Hne Hinc.
    assert (Ht : truthy_string m = true)
      by (destruct m; [congruence | reflexivity]).
    rewrite Ht in Hre. rewrite <- Hre.
    apply failure_response_shown;
      [exact Hok | rewrite Hre; exact Ht | rewrite Hre; exact Hinc]. }
  split; [exact Hempty | split; [exact Hfull |]].
  intros He. subst entries. cbn in Hconv. injection Hconv as <-.
  apply Hfull; [discriminate | reflexivity].
Qed.

(** The forms and the files a submission posts. *)
Lemma submit_posts (w : World N) finger file log :
  snd (submit w finger file log)
  = log ++ (if configured w
            then match VITE_API_BASE_URL w with
                 | Some baseUrl => [post_request baseUrl finger file]
                 | None => []
                 end
            else []).
Proof.
  destruct (configured w) eqn:Hc.
  - unfold configured in Hc.
    destruct (VITE_API_BASE_URL w) as [b |] eqn:Hb; [| discriminate].
    rewrite (submit_configured _ _ _ _ _ Hb Hc). reflexivity.
  - rewrite (submit_unconfigured _ _ _ _ Hc), app_nil_r. reflexivity.
Qed.

Lemma submit_forms_posted (w : World N) finger file :
  forms (snd (submit w finger file []))
  = if configured w
    then [[("finger_type", FieldString (FingerType_value finger));
           ("original_image", FieldFile file)]]
    else [].
Proof.
  rewrite submit_posts. unfold configured.
  destruct (VITE_API_BASE_URL w) as [b |]; [| reflexivity].
  destruct (truthy_string b); reflexivity.
Qed.

Lemma submit_posted_files (w : World N) finger file log :
  forall f, In f (App.posted_files (snd (submit w finger file log))) ->
            In f (App.posted_files log) \/ f = file.
Proof.
  intros f. rewrite submit_posts. unfold App.posted_files.
  rewrite flat_map_app, in_app_iff. intros [Hin | Hin]; [left; exact Hin |].
  destruct (configured w); [| contradiction].
  destruct (VITE_API_BASE_URL w); [| contradiction].
  cbn in Hin. destruct Hin as [<- | []]. right. reflexivity.
Qed.

Lemma handleFileSelect_image files (s : App.State N) :
  App.image_selected s -> App.image_selected (App.handleFileSelect files s).
Proof.
  unfold App.image_selected, App.handleFileSelect. intros Hs f.
  destruct (App.first_file files) as [file |]; [| apply Hs].
  destruct (startsWith "image/" (type file)) eqn:Ht; [| apply Hs].
  cbn. intros [= <-]. exact Ht.
Qed.

Lemma handleUploadSubmit_file (w : World N) (s : App.State N) :
  App.selectedFile (App.settled s (App.handleUploadSubmit w s))
  = App.selectedFile s.
Proof.
  destruct (App.selectedFile s) as [file |] eqn:Hfile.
  - rewrite (handleUploadSubmit_settled _ _ _ Hfile). cbv zeta.
    destruct (fst _); exact Hfile.
  - unfold App.handleUploadSubmit. rewrite Hfile. exact Hfile.
Qed.

Lemma handleCapture_file (w : World N) imageData (s : App.State N) :
  App.selectedFile (App.settled s (App.handleCapture w imageData s))
  = App.selectedFile s.
Proof.
  rewrite App_handleCapture_run. cbv zeta. destruct (fst _); reflexivity.
Qed.

Lemma dispatch_image (w : World N) e (s : App.State N) :
  App.image_selected s -> App.image_selected (App.settled s (App.dispatch w e s)).
Proof.
  intros Hs. unfold App.dispatch.
  destruct (App.currentView s), e; try exact Hs.
  - intros f. rewrite handleCapture_file. apply Hs.
  - apply handleFileSelect_image, Hs.
  - destruct (App.submit_disabled s); [exact Hs |].
    intros f. rewrite handleUploadSubmit_file. apply Hs.
  - destruct (App.retake_offered s); [| exact Hs].
    intros f. cbn. discriminate.
Qed.

Lemma reachable_image (w : World N) (s : App.State N) :
  App.reachable w s -> App.image_selected s.
Proof.
  induction 1 as [| s e _ IH].
  - intros f. cbn. discriminate.
  - apply dispatch_image, IH.
Qed.

(** Whatever the event, the files posted are the selected file or a
    captured frame. *)
Lemma dispatch_posted_files (w : World N) e (s : App.State N) f :
  In f (App.posted_files (App.sent (App.dispatch w e s))) ->
  App.selectedFile s = Some f \/ exists b, f = png_file b.
Proof.
  unfold App.dispatch.
  destruct (App.currentView s), e; cbn; try contradiction.
  - rewrite App_handleCapture_sent, capture_try.
    destruct (decode w imageData) as [b | err]; [| cbn; contradiction].
    intros Hin. apply submit_posted_files in Hin.
    destruct Hin as [[] | ->]. right. exists b. reflexivity.
  - destruct (App.submit_disabled s); [cbn; contradiction |].
    destruct (App.selectedFile s) as [file |] eqn:Hfile.
    + rewrite (handleUploadSubmit_selected _ _ _ Hfile). cbv zeta. cbn [App.sent].
      intros Hin. apply submit_posted_files in Hin.
      destruct Hin as [[] | ->]. left. reflexivity.
    + unfold App.handleUploadSubmit. rewrite Hfile. cbn. contradiction.
  - destruct (App.retake_offered s); cbn; contradiction.
Qed.

(** C8. A chosen file whose type does not start with "image/" is
    rejected by [handleFileSelect]: the only change is the error, set to
    "Please select a valid image file" and displayed in the upload view.
    In no reachable state is such a file the selected file, and no event
    in a reachable state posts it to the endpoint. *)
Theorem non_image_file_is_rejected (file : File) :
  startsWith "image/" (type file) = false ->
  (forall (s : App.State N) rest,
      App.handleFileSelect (Some (file :: rest)) s
      = App.setError "Please select a valid image file" s /\
      (App.currentView s = App.v_upload ->
       App.displayed_error (App.handleFileSelect (Some (file :: rest)) s)
       = Some "Please select a valid image file")) /\
  (forall (w : World N) (s : App.State N),
      App.reachable w s -> App.selectedFile s <> Some file) /\
  (forall (w : World N) (s : App.State N) e,
      App.reachable w s ->
      ~ In file (App.posted_files (App.sent (App.dispatch w e s)))).
Proof.
  intros Ht. split; [| split].
  - intros s rest. unfold App.handleFileSelect. cbn [App.first_file].
    rewrite Ht. split; [reflexivity |].
    intros Hv. unfold App.displayed_error. cbn. rewrite Hv. reflexivity.
  - intros w s Hr Hsel. apply (reachable_image _ _ Hr) in Hsel. congruence.
  - intros w s e Hr Hin. apply dispatch_posted_files in Hin.
    destruct Hin as [Hsel | (b & ->)].
    + apply (reachable_image _ _ Hr) in Hsel. congruence.
    + discriminate Ht.
Qed.

(** C10. When the file dialog yields no file, or a first file whose type
    does not start with "image/", [handleFileSelect] leaves the selected
    file as it was: a file selected before is still selected, the submit
    button stays enabled while the error "Please select a valid image
    file" is displayed, and submitting posts that earlier file (one form,
    when the base URL is configured). *)
Theorem rejected_selection_keeps_previous_file
  (s : App.State N) (file : File) (files : option (list File)) :
  App.selectedFile s = Some file ->
  (App.first_file files = None \/
   exists f, App.first_file files = Some f /\
             startsWith "image/" (type f) = false) ->
  let s' := App.handleFileSelect files s in
  App.selectedFile s' = Some file /\
  App.error s' = "Please select a valid image file" /\
  (App.currentView s = App.v_upload ->
   App.displayed_error s' = Some "Please select a valid image file") /\
  App.submit_disabled s' = false /\
  forall w : World N,
    (App.currentView s = App.v_upload ->
     App.dispatch w App.ClickProcessImage s' = App.handleUploadSubmit w s') /\
    forms (App.sent (App.handleUploadSubmit w s'))
    = if configured w
      then [[("finger_type", FieldString (FingerType_value (App.selectedFinger s)));
             ("original_image", FieldFile file)]]
      else [].
Proof.
  intros Hfile Hrej s'.
  assert (Hs' : s' = App.setError "Please select a valid image file" s).
  { subst s'. unfold App.handleFileSelect.
    destruct Hrej as [-> | (f & -> & ->)]; reflexivity. }
  assert (Hfile' : App.selectedFile s' = Some file)
    by (rewrite Hs'; exact Hfile).
  split; [exact Hfile' |].
  split; [rewrite Hs'; reflexivity |].
  split.
  { intros Hv. rewrite Hs'. unfold App.displayed_error. cbn. rewrite Hv.
    reflexivity. }
  split; [unfold App.submit_disabled; rewrite Hfile'; reflexivity |].
  intros w. split.
  - intros Hv. unfold App.dispatch, App.submit_disabled.
    rewrite Hfile'. rewrite Hs'. cbn [App.currentView App.setError].
    rewrite Hv. reflexivity.
  - rewrite (handleUploadSubmit_selected _ _ _ Hfile'). cbv zeta. cbn [App.sent].
    rewrite submit_forms_posted. rewrite Hs'. reflexivity.
Qed.

End WithNumbers.

(** *** The statements at concrete inputs *)

Import Examples.

Lemma selected_finger_is_submitted_witness :
  finger_type_fields
    (App.sent (App.handleUploadSubmit (answering api (respond 200 (Fulfilled payload)))
                 (App.handleFileSelect None
                    (App.setSelectedFinger middle (uploading index)))))
  = [Some (FieldString "middle")].
Proof.
  exact (proj1 (proj2 (selected_finger_is_submitted middle
                         (answering api (respond 200 (Fulfilled payload)))))
           (uploading index) None eq_refl).
Defined.

Lemma success_shows_result_and_retake_clears_witness :
  let w := answering api (respond 200 (Fulfilled payload)) in
  let r := App.handleCapture w "iVBORw0KGgo=" (framing middle) in
  map App.currentView (App.frames r) = [App.v_loading; App.v_result] /\
  App.result (App.settled (framing middle) r) = payload /\
  App.retake_offered (App.settled (framing middle) r) = true /\
  App.dispatch w App.ClickBackToStart (App.settled (framing middle) r)
  = App.commit (App.handleRetake (App.settled (framing middle) r)) /\
  App.handleRetake (App.settled (framing middle) r)
  = {| App.currentView := App.v_method_selection;
       App.selectedFinger := middle;
       App.capturedImage := "";
       App.selectedFile := None;
       App.result := JNull;
       App.error := "" |}.
Proof.
  intros w r.
  apply (proj2 (success_shows_result_and_retake_clears w)
           (framing middle) "iVBORw0KGgo=" "PNG"
           (respond 200 (Fulfilled payload)) payload).
  - reflexivity.
  - exists "https://api.example.test". repeat split.
  - reflexivity.
  - reflexivity.
  - reflexivity.
Defined.

(** C3, as stated, fails: an object without entries gives the fallback
    message and not the (empty) joined one, a joined message that
    contains "fetch" is replaced by the network message, and an object
    value with an entry "toString" cannot be stringified: the message of
    the engine's [TypeError] is displayed. *)
Lemma structured_message_not_always_joined :
  (let response := respond 400 (Fulfilled no_errors) in
   let s := uploading index in
   let shown := App.error (App.settled s (App.handleUploadSubmit (answering api response) s)) in
   ok response = false /\
   errorMessages no_errors = Some "" /\
   shown = "Failed to process fingerprint" /\
   Some shown <> errorMessages no_errors) /\
  (let response := respond 422 (Fulfilled fetch_detail) in
   let s := uploading index in
   let shown := App.error (App.settled s (App.handleUploadSubmit (answering api response) s)) in
   ok response = false /\
   errorMessages fetch_detail = Some "Could not fetch the image" /\
   shown = "Network error. Please check your connection." /\
   Some shown <> errorMessages fetch_detail) /\
  (let response := respond 400 (Fulfilled toString_detail) in
   let s := uploading index in
   let shown := App.error (App.settled s (App.handleUploadSubmit (answering api response) s)) in
   ok response = false /\
   errorMessages toString_detail = None /\
   shown = "Cannot convert object to primitive value" /\
   shown <> "[object Object]").
Proof.
  split; [| split]; cbv zeta; repeat split; try reflexivity;
    vm_compute; discriminate.
Qed.

Lemma structured_failure_message_witness :
  let response := respond 400 (Fulfilled field_errors) in
  let s := uploading index in
  let r := App.handleUploadSubmit (answering api response) s in
  App.error (App.settled s r) = "error one, error two" /\
  App.displayed_error (App.settled s r) = Some "error one, error two".
Proof.
  intros response s r.
  apply (proj1 (proj2 (proj2 (structured_failure_message (answering api response)
                                response
                                [("field", JArr [JStr "error one"; JStr "error two"])]
                                ["error one, error two"]
                                eq_refl eq_refl eq_refl)) eq_refl)
           s scan).
  - reflexivity.
  - exists "https://api.example.test". repeat split.
Defined.

(** C4, as stated, fails for a body that is a JSON array: an array is no
    JSON object, yet it passes the test on [typeof] and its elements are
    joined into the message. *)
Lemma array_body_takes_the_structured_path :
  let response := respond 503 (Fulfilled array_body) in
  let s := uploading index in
  let shown := App.error (App.settled s (App.handleUploadSubmit (answering api response) s)) in
  ok response = false /\
  (500 <= status response) /\
  json response = Fulfilled (JArr [JStr "boom"]) /\
  shown = "boom" /\
  shown <> "Server error. Please try again later.".
Proof.
  cbv zeta. repeat split; try reflexivity; vm_compute; discriminate.
Qed.

Lemma unparsable_failure_message_witness :
  let response := respond 503 (Rejected (ErrorObject "Unexpected token <")) in
  let s := uploading index in
  let r := App.handleUploadSubmit (answering api response) s in
  App.error (App.settled s r) = "Server error. Please try again later." /\
  App.displayed_error (App.settled s r) = Some "Server error. Please try again later.".
Proof.
  intros response s r.
  apply (proj1 (proj1 (unparsable_failure_message (answering api response)
                         response eq_refl eq_refl)
                  ltac:(cbn; lia))
           s scan).
  - reflexivity.
  - exists "https://api.example.test". repeat split.
Defined.

(** C5, as stated, fails for an upload without base URL: the loading
    view is never committed, the upload view with the error is the only
    frame. *)
Lemma unconfigured_upload_never_shows_loading :
  let w := answering None (respond 200 (Fulfilled payload)) in
  let s := uploading index in
  let r := App.handleUploadSubmit w s in
  failure w index scan (ErrorObject "API base URL is not configured") /\
  map App.currentView (App.frames r) = [App.v_upload] /\
  ~ In App.v_loading (map App.currentView (App.frames r)) /\
  App.error (App.settled s r) = "API base URL is not configured".
Proof.
  cbv zeta. split; [constructor; reflexivity |].
  split; [reflexivity |]. split; [| reflexivity].
  vm_compute. intros [Hcontra | []]. discriminate Hcontra.
Qed.

Lemma failure_returns_to_acquisition_view_witness :
  let s := uploading index in
  let r := App.handleUploadSubmit offline s in
  map App.currentView (App.frames r) = [App.v_loading; App.v_upload] /\
  (configured offline = false ->
   "Network error. Please check your connection." = "API base URL is not configured") /\
  App.error (App.settled s r) = "Network error. Please check your connection." /\
  (ErrorObject "Failed to fetch" <> ErrorObject "" ->
   App.displayed_error (App.settled s r)
   = Some "Network error. Please check your connection.").
Proof.
  intros s r.
  apply (proj1 (failure_returns_to_acquisition_view offline)
           s scan (ErrorObject "Failed to fetch")).
  - reflexivity.
  - apply (network_error offline index scan "https://api.example.test");
      reflexivity.
Defined.

Lemma missing_base_url_fails_locally_witness :
  let w := answering None (respond 200 (Fulfilled payload)) in
  let s := uploading index in
  let r := App.handleUploadSubmit w s in
  App.sent r = [] /\
  App.error (App.settled s r) = "API base URL is not configured" /\
  App.displayed_error (App.settled s r) = Some "API base URL is not configured".
Proof.
  intros w s r.
  apply (proj1 (missing_base_url_fails_locally w eq_refl) s scan).
  reflexivity.
Defined.

Lemma submit_without_file_is_rejected_witness :
  let w := answering api (respond 200 (Fulfilled payload)) in
  let r := App.handleUploadSubmit w upload_entered in
  App.sent r = [] /\
  App.frames r = [App.setError "Please select an image file" upload_entered] /\
  map App.currentView (App.frames r) = [App.v_upload] /\
  App.displayed_error (App.settled upload_entered r)
  = Some "Please select an image file".
Proof.
  intros w r.
  apply (submit_without_file_is_rejected w upload_entered); reflexivity.
Defined.

Lemma non_image_file_is_rejected_witness :
  App.handleFileSelect (Some [notes]) (uploading index)
  = App.setError "Please select a valid image file" (uploading index) /\
  App.selectedFile (App.handleFileSelect (Some [notes]) upload_entered) = None.
Proof.
  split.
  - exact (proj1 (proj1 (non_image_file_is_rejected (N := SafeInteger) notes eq_refl)
                    (uploading index) [])).
  - reflexivity.
Defined.

Lemma rejected_selection_keeps_previous_file_witness :
  let s' := App.handleFileSelect (Some [notes]) (uploading ring) in
  App.selectedFile s' = Some scan /\
  App.error s' = "Please select a valid image file" /\
  forms (App.sent (App.handleUploadSubmit
                     (answering api (respond 200 (Fulfilled payload))) s'))
  = [[("finger_type", FieldString "ring"); ("original_image", FieldFile scan)]].
Proof.
  intros s'.
  destruct (rejected_selection_keeps_previous_file (uploading ring) scan
              (Some [notes]) eq_refl
              (or_intror (ex_intro _ notes (conj eq_refl eq_refl))))
    as (Hfile & Herr & _ & _ & Hsubmit).
  split; [exact Hfile | split; [exact Herr |]].
  exact (proj2 (Hsubmit (answering api (respond 200 (Fulfilled payload))))).
Defined.

End AppFacts.

(* ================================================================== *)
(** ** Facts about the camera component                                 *)
(* ================================================================== *)

Module CameraFacts.
Import Camera.
Local Open Scope Q_scope.

(** A manual constraint set applied by [applySettings] carries the
    exposure values of the render it closes over, which is in macro
    mode. *)
Lemma applySettings_manual (d : Device) (s : State) t c i :
  In (ApplyConstraints (Manual t c i)) (applySettings d s) ->
  isMacroMode s = true /\
  Manual t c i = Manual (exposureTime s) (exposureCompensation s) (iso s).
Proof.
  unfold applySettings.
  destruct (trackRef d); cbn; [| contradiction].
  destruct (isMacroMode s); cbn.
  - intros [Hcontra | [Heq | Hrest]].
    + discriminate Hcontra.
    + injection Heq as <- <- <-. split; reflexivity.
    + destruct (supports d _ && imageCaptureRef d); cbn in Hrest.
      * destruct Hrest as [Hcontra | []]. discriminate Hcontra.
      * contradiction.
  - intros [Hcontra | [Hcontra | []]]; discriminate Hcontra.
Qed.

(** Every run an effect starts is the [applySettings] of the new
    render. *)
Lemma effects_new_render (d : Device) (s s' : State) run :
  In run (effects d s s') -> run = applySettings d s'.
Proof.
  unfold effects. rewrite in_app_iff. intros [Hin | Hin].
  - destruct (_ || _); [| contradiction].
    destruct (hasPermission s'); [| contradiction].
    destruct Hin as [<- | []]. reflexivity.
  - destruct (_ || _); [| contradiction].
    destruct (hasPermission s' && isMacroMode s'); [| contradiction].
    destruct Hin as [<- | []]. reflexivity.
Qed.

(** C9. A click on the exposure-mode button in auto mode leaves the
    component in macro mode with exposureTime = 2.5, iso = 400 and
    exposureCompensation = 0, and every manual constraint set applied to
    the track in consequence is {manual, 2.5, 0, 400}: the values are
    reset before any manual set is applied.  With a live track and camera
    permission the manual set is applied, by the effect that runs after
    the re-render; the call of [applySettings] made by the handler itself
    still reads the render in auto mode and applies the continuous
    set. *)
Theorem toggle_into_macro_resets_exposure (d : Device) (s : State) :
  isMacroMode s = false ->
  let s' := fst (toggleMacroMode d s) in
  let runs := snd (toggleMacroMode d s) in
  (isMacroMode s' = true /\
   exposureTime s' = 2.5 /\ iso s' = 400 /\ exposureCompensation s' = 0) /\
  (forall run t c i,
      In run runs -> In (ApplyConstraints (Manual t c i)) run ->
      Manual t c i = Manual 2.5 0 400) /\
  (hasPermission s = true -> trackRef d = true ->
   exists others,
     runs = applySettings d s :: applySettings d s' :: others /\
     applySettings d s
     = [ApplyConstraints (Torch (isFlashOn s)); ApplyConstraints (Continuous 0)] /\
     In (ApplyConstraints (Manual 2.5 0 400)) (applySettings d s')).
Proof.
  intros Hauto s' runs. subst s' runs. cbn [toggleMacroMode fst snd].
  assert (Hs' : toggleMacroMode_updates s
                = setExposureCompensation 0
                    (setIso 400 (setExposureTime 2.5 (setIsMacroMode true s)))).
  { unfold toggleMacroMode_updates. rewrite Hauto. reflexivity. }
  rewrite Hs'. set (s' := setExposureCompensation 0 _).
  split; [repeat split |].
  split.
  - intros run t c i [<- | Hrun] Hcall.
    + apply applySettings_manual in Hcall. destruct Hcall as [Hmacro _].
      congruence.
    + apply effects_new_render in Hrun. subst run.
      apply applySettings_manual in Hcall. destruct Hcall as [_ ->].
      reflexivity.
  - intros Hperm Htrack. unfold effects.
    assert (Hchanged : changed_bool (isMacroMode s) (isMacroMode s') = true)
      by (cbn; rewrite Hauto; reflexivity).
    assert (Hperm' : hasPermission s' = true) by exact Hperm.
    rewrite Hchanged, orb_true_r, Hperm'. cbn [app].
    eexists. split; [reflexivity |]. split.
    + unfold applySettings. rewrite Htrack, Hauto. reflexivity.
    + unfold applySettings. rewrite Htrack. cbn. right. left. reflexivity.
Qed.

Lemma toggle_into_macro_resets_exposure_witness :
  let s' := fst (toggleMacroMode Examples.phone Examples.auto_mode) in
  let runs := snd (toggleMacroMode Examples.phone Examples.auto_mode) in
  (exposureTime s' = 2.5 /\ iso s' = 400 /\ exposureCompensation s' = 0) /\
  runs = [[ApplyConstraints (Torch true); ApplyConstraints (Continuous 0)];
          [ApplyConstraints (Torch true); ApplyConstraints (Manual 2.5 0 400);
           SetOptions (Manual 2.5 0 400)];
          [ApplyConstraints (Torch true); ApplyConstraints (Manual 2.5 0 400);
           SetOptions (Manual 2.5 0 400)]].
Proof.
  intros s' runs.
  destruct (toggle_into_macro_resets_exposure Examples.phone Examples.auto_mode
              eq_refl) as ((_ & Hvalues) & _ & _).
  split; [exact Hvalues | reflexivity].
Defined.

End CameraFacts.

(* ================================================================== *)
(** ** Facts about sequences of events                                  *)
(* ================================================================== *)

Module FlowFacts.
Import JS Web Submission Exchange SubmissionFacts AppFacts Flow.

Section WithNumbers.
Context {N : Type} `{JsNumber N} `{JsEngine}.

(** X1. The selected finger is changed by the finger selector only: it
    survives every sequence of other events, among them navigation, a
    failed or successful submission and a retake. *)
Theorem finger_survives_all_but_the_selector
  (w : World N) (events : list App.Event) (s : App.State N) :
  forallb (fun e => negb (changes_finger e)) events = true ->
  App.selectedFinger (play w events s) = App.selectedFinger s.
Proof.
  revert s. induction events as [| e rest IH]; intros s Hev; [reflexivity |].
  cbn in Hev. apply andb_prop in Hev. destruct Hev as [He Hrest].
  cbn [play]. rewrite (IH _ Hrest).
  apply dispatch_keeps_finger. intros f ->. discriminate He.
Qed.

(** X2. An event leaves the selected file as it was, except a file choice
    whose first file has an image type, which selects that file, and a
    retake, which deselects.  Going back and failing to submit do not
    deselect. *)
Theorem selected_file_frame (w : World N) (e : App.Event) (s : App.State N) :
  let s' := App.settled s (App.dispatch w e s) in
  App.selectedFile s' = App.selectedFile s \/
  (exists files f,
      e = App.ChangeFile files /\ App.first_file files = Some f /\
      startsWith "image/" (type f) = true /\ App.selectedFile s' = Some f) \/
  (e = App.ClickBackToStart /\ App.selectedFile s' = None).
Proof.
  cbv zeta. unfold App.dispatch.
  destruct (App.currentView s), e; try (left; reflexivity).
  - left. apply handleCapture_file.
  - cbn. unfold App.handleFileSelect.
    destruct (App.first_file files) as [f |] eqn:Hf; [| left; reflexivity].
    destruct (startsWith "image/" (type f)) eqn:Ht; [| left; reflexivity].
    right. left. exists files, f. repeat split; assumption.
  - destruct (App.submit_disabled s); [left; reflexivity |].
    left. apply handleUploadSubmit_file.
  - destruct (App.retake_offered s); [| left; reflexivity].
    right. right. split; reflexivity.
Qed.

(** X3. A chosen file whose type starts with "image/" replaces whatever
    was selected: it becomes the selected file, the error is cleared, the
    submit button is enabled, and submitting posts that file with the
    selected finger (one form, when the base URL is configured).  Files
    after the first are ignored. *)
Theorem accepted_file_is_what_gets_posted
  (w : World N) (s : App.State N) (file : File) (rest : list File) :
  startsWith "image/" (type file) = true ->
  let s' := App.handleFileSelect (Some (file :: rest)) s in
  App.selectedFile s' = Some file /\
  App.error s' = "" /\
  App.displayed_error s' = None /\
  App.submit_disabled s' = false /\
  forms (App.sent (App.handleUploadSubmit w s'))
  = if configured w
    then [[("finger_type", FieldString (FingerType_value (App.selectedFinger s)));
           ("original_image", FieldFile file)]]
    else [].
Proof.
  intros Ht s'.
  assert (Hs' : s' = App.setError "" (App.setSelectedFile (Some file) s)).
  { subst s'. unfold App.handleFileSelect. cbn [App.first_file].
    rewrite Ht. reflexivity. }
  assert (Hfile : App.selectedFile s' = Some file) by (rewrite Hs'; reflexivity).
  split; [exact Hfile |].
  split; [rewrite Hs'; reflexivity |].
  split.
  { rewrite Hs'. unfold App.displayed_error. cbn.
    destruct (App.currentView s); reflexivity. }
  split; [unfold App.submit_disabled; rewrite Hfile; reflexivity |].
  rewrite (handleUploadSubmit_selected _ _ _ Hfile). cbv zeta. cbn [App.sent].
  rewrite submit_forms_posted, Hs'. reflexivity.
Qed.

(** No event does anything in the result view while the result is
    falsy. *)
Lemma blank_result_view_idle (w : World N) (s : App.State N) e :
  App.currentView s = App.v_result ->
  ToBoolean (App.result s) = false ->
  App.dispatch w e s = App.idle.
Proof.
  intros Hv Hr. unfold App.dispatch, App.retake_offered. rewrite Hv, Hr.
  destruct e; reflexivity.
Qed.

Lemma blank_result_view_stays (w : World N) events (s : App.State N) :
  App.currentView s = App.v_result ->
  ToBoolean (App.result s) = false ->
  play w events s = s.
Proof.
  intros Hv Hr. induction events as [| e rest IH]; [reflexivity |].
  cbn [play]. rewrite (blank_result_view_idle _ _ _ Hv Hr). exact IH.
Qed.

(** X4. When the endpoint answers a capture or an upload with a 2xx
    response whose body parses to a falsy value (null, false, 0 or the
    empty string), the application ends in the result view holding that
    value; the result block with its "Back to Start" button is not
    rendered for it, and no sequence of events changes the state any
    more. *)
Theorem falsy_body_strands_the_result_view
  (w : World N) (s : App.State N) (e : App.Event)
  (response : Response N) (data : Json N) :
  (App.currentView s = App.v_camera /\
   exists imageData b,
     e = App.OnCapture imageData /\ decode w imageData = Fulfilled b /\
     answered w (App.selectedFinger s) (png_file b) response) \/
  (App.currentView s = App.v_upload /\ e = App.ClickProcessImage /\
   exists file, App.selectedFile s = Some file /\
                answered w (App.selectedFinger s) file response) ->
  ok response = true ->
  json response = Fulfilled data ->
  ToBoolean data = false ->
  let s' := App.settled s (App.dispatch w e s) in
  App.currentView s' = App.v_result /\
  App.result s' = data /\
  forall events, play w events s' = s'.
Proof.
  intros Hpath Hok Hj Hfalsy s'.
  assert (Hs' : App.currentView s' = App.v_result /\ App.result s' = data).
  { subst s'. unfold App.dispatch.
    destruct Hpath as [(Hv & imageData & b & -> & Hd & Ha)
                      | (Hv & -> & file & Hfile & Ha)]; rewrite Hv.
    - rewrite App_handleCapture_run, (capture_try_decoded _ _ _ _ Hd). cbv zeta.
      rewrite (submit_answered_outcome _ _ _ _ _ Ha).
      unfold response_outcome. rewrite Hok, Hj. split; reflexivity.
    - unfold App.submit_disabled. rewrite Hfile.
      rewrite (handleUploadSubmit_settled _ _ _ Hfile). cbv zeta.
      rewrite (submit_answered_outcome _ _ _ _ _ Ha).
      unfold response_outcome. rewrite Hok, Hj. split; reflexivity. }
  destruct Hs' as [Hv' Hr'].
  split; [exact Hv' | split; [exact Hr' |]].
  intros events. apply blank_result_view_stays; [exact Hv' |].
  rewrite Hr'. exact Hfalsy.
Qed.

(** X5. Every request an event makes is the local request decoding a
    captured frame or a POST to [{baseUrl}/finger/capture] carrying the
    selected finger and a file, and an event posts at most one form. *)
Theorem requests_are_local_or_posts
  (w : World N) (e : App.Event) (s : App.State N) :
  (forall req, In req (App.sent (App.dispatch w e s)) ->
     (exists imageData, req = data_request imageData) \/
     (exists baseUrl file,
         VITE_API_BASE_URL w = Some baseUrl /\
         truthy_string baseUrl = true /\
         req = post_request baseUrl (App.selectedFinger s) file)) /\
  (length (forms (App.sent (App.dispatch w e s))) <= 1)%nat.
Proof.
  assert (Hsubmit : forall finger file log req,
             In req (snd (submit w finger file log)) ->
             In req log \/
             exists baseUrl,
               VITE_API_BASE_URL w = Some baseUrl /\
               truthy_string baseUrl = true /\
               req = post_request baseUrl finger file).
  { intros finger file log req. rewrite submit_posts, in_app_iff.
    intros [Hin | Hin]; [left; exact Hin |].
    unfold configured in Hin.
    destruct (VITE_API_BASE_URL w) as [b |]; [| contradiction].
    destruct (truthy_string b) eqn:Hb; [| contradiction].
    destruct Hin as [<- | []]. right. exists b. repeat split. exact Hb. }
  assert (Hlen : forall finger file log,
             length (forms (snd (submit w finger file log)))
             = (length (forms log) + if configured w then 1 else 0)%nat).
  { intros finger file log. rewrite submit_posts. unfold forms.
    rewrite flat_map_app, length_app. f_equal. unfold configured.
    destruct (VITE_API_BASE_URL w) as [b |]; [| reflexivity].
    destruct (truthy_string b); reflexivity. }
  unfold App.dispatch.
  destruct (App.currentView s), e; cbn;
    try (split; [intros req [] | lia]).
  - rewrite App_handleCapture_sent, capture_try.
    destruct (decode w imageData) as [b | err].
    + split.
      * intros req Hin. apply Hsubmit in Hin.
        destruct Hin as [[<- | []] | (base & Hb & Ht & ->)].
        -- left. exists imageData. reflexivity.
        -- right. exists base, (png_file b). repeat split; assumption.
      * rewrite Hlen. cbn. destruct (configured w); lia.
    + split; [| cbn; lia].
      intros req [<- | []]. left. exists imageData. reflexivity.
  - destruct (App.submit_disabled s); [split; [intros req [] | cbn; lia] |].
    destruct (App.selectedFile s) as [file |] eqn:Hfile.
    + rewrite (handleUploadSubmit_selected _ _ _ Hfile). cbv zeta. cbn [App.sent].
      split.
      * intros req Hin. apply Hsubmit in Hin.
        destruct Hin as [[] | (base & Hb & Ht & ->)].
        right. exists base, file. repeat split; assumption.
      * rewrite Hlen. cbn. destruct (configured w); lia.
    + unfold App.handleUploadSubmit. rewrite Hfile. cbn.
      split; [intros req [] | lia].
  - destruct (App.retake_offered s); cbn; split; try (intros req []); lia.
Qed.

(** X6. Only a capture, a file choice and a click on "Process Image" can
    put an error on screen: after any other event the error box is
    absent or shows what it showed before.  In particular an error left
    by a failed submission is gone once the user has navigated away and
    come back. *)
Theorem navigation_never_surfaces_an_error
  (w : World N) (e : App.Event) (s : App.State N) :
  may_fail e = false ->
  let s' := App.settled s (App.dispatch w e s) in
  App.displayed_error s' = None \/
  App.displayed_error s' = App.displayed_error s.
Proof.
  intros He. cbv zeta. unfold App.dispatch.
  destruct (App.currentView s) eqn:Hv, e; try discriminate He;
    try destruct (App.retake_offered s);
    unfold App.displayed_error; cbn; rewrite ?Hv; auto.
Qed.

(** X7. A result is held only while the result view is on screen: in
    every reachable state outside the result view the result cell is
    null, so no submission starts with a result left from an earlier
    one. *)
Theorem result_only_in_result_view (w : World N) (s : App.State N) :
  App.reachable w s ->
  App.currentView s <> App.v_result ->
  App.result s = JNull.
Proof.
  induction 1 as [| s e Hr IH]; [reflexivity |].
  unfold App.dispatch.
  destruct (App.currentView s) eqn:Hv, e;
    try solve [cbn; intros Hne;
               first [reflexivity | congruence | apply IH; discriminate]].
  - rewrite App_handleCapture_run. cbv zeta. destruct (fst _); cbn; intros Hne.
    + congruence.
    + apply IH. discriminate.
  - cbn. unfold App.handleFileSelect.
    destruct (App.first_file files) as [f |];
      [destruct (startsWith "image/" (type f)) |];
      cbn; intros _; apply IH; discriminate.
  - destruct (App.submit_disabled s);
      [cbn; intros _; apply IH; discriminate |].
    destruct (App.selectedFile s) as [file |] eqn:Hfile.
    + rewrite (handleUploadSubmit_settled _ _ _ Hfile). cbv zeta.
      destruct (fst _); cbn; intros Hne.
      * congruence.
      * apply IH. discriminate.
    + unfold App.handleUploadSubmit. rewrite Hfile. cbn. intros _.
      apply IH. discriminate.
  - destruct (App.retake_offered s); cbn; intros Hne;
      [reflexivity | congruence].
Qed.

(** X8. On the live path the two controllers do the same: from states
    that agree on the cells they share, [handleCapture] makes the same
    requests in both and commits frames that agree again, and so does
    [handleProceedToCamera]. *)
Theorem live_capture_agrees_with_full_controller
  (w : World N) (imageData : string) (s : App.State N) (t : AppLive.State N) :
  corresponds s t ->
  App.sent (App.handleCapture w imageData s)
  = AppLive.sent (AppLive.handleCapture w imageData t) /\
  Forall2 corresponds
    (App.frames (App.handleCapture w imageData s))
    (AppLive.frames (AppLive.handleCapture w imageData t)) /\
  corresponds (App.handleProceedToCamera s) (AppLive.handleProceedToCamera t).
Proof.
  intros (Hv & Hf & Hc & Hr & He).
  rewrite App_handleCapture_run, AppLive_handleCapture_run. cbv zeta.
  rewrite <- Hf. cbn [App.sent AppLive.sent App.frames AppLive.frames].
  split; [reflexivity |]. split.
  - constructor; [repeat split; cbn; assumption |].
    constructor; [| constructor].
    destruct (fst _); repeat split; cbn; assumption.
  - repeat split; cbn; assumption.
Qed.

(** X20. After an upload the committed state is the result view only if
    the base URL is configured and the endpoint answered with a 2xx
    response whose body parses; the result is then that body and the
    error is empty.  When the body is an [ApiResponse], the result block
    with its "Back to Start" button is on screen.  When the body is
    truthy but an expression of the result block throws for it, the
    render fails and no event does anything any more.  In every other
    case the upload view is back. *)
Theorem upload_outcomes (w : World N) (s : App.State N) (file : File) :
  App.selectedFile s = Some file ->
  let s' := App.settled s (App.handleUploadSubmit w s) in
  (App.currentView s' = App.v_result ->
   exists response data,
     answered w (App.selectedFinger s) file response /\
     ok response = true /\ json response = Fulfilled data /\
     App.result s' = data /\ App.error s' = "") /\
  (forall response data,
      answered w (App.selectedFinger s) file response ->
      ok response = true -> json response = Fulfilled data ->
      App.currentView s' = App.v_result /\ App.result s' = data /\
      (is_ApiResponse data = true -> App.retake_offered s' = true) /\
      (ToBoolean data = true -> result_block_evaluates data = false ->
       App.retake_offered s' = false /\ forall events, play w events s' = s')) /\
  (App.currentView s' = App.v_result \/ App.currentView s' = App.v_upload).
Proof.
  intros Hfile s'. subst s'.
  rewrite (handleUploadSubmit_settled _ _ _ Hfile). cbv zeta.
  destruct (fst (submit w (App.selectedFinger s) file [])) as [data | err] eqn:Hout.
  - assert (Hanswer : exists response,
               answered w (App.selectedFinger s) file response /\
               ok response = true /\ json response = Fulfilled data).
    { destruct (configured w) eqn:Hc.
      - unfold configured in Hc.
        destruct (VITE_API_BASE_URL w) as [b |] eqn:Hb; [| discriminate].
        rewrite (submit_configured _ _ _ _ _ Hb Hc) in Hout. cbn [fst] in Hout.
        destruct (fetch w (post_request b (App.selectedFinger s) file))
          as [response | e] eqn:Hf; [| discriminate].
        unfold response_outcome in Hout.
        destruct (ok response) eqn:Hok; [| discriminate].
        exists response. split; [| split; [exact Hok | exact Hout]].
        exists b. repeat split; assumption.
      - rewrite (submit_unconfigured _ _ _ _ Hc) in Hout. discriminate. }
    split; [| split; [| left; reflexivity]].
    + intros _. destruct Hanswer as (response & Ha & Hok & Hj).
      exists response, data. repeat split; assumption.
    + intros response data' Ha Hok Hj.
      rewrite (submit_answered_outcome _ _ _ _ _ Ha) in Hout.
      unfold response_outcome in Hout. rewrite Hok, Hj in Hout.
      injection Hout as ->.
      split; [reflexivity |]. split; [reflexivity |]. split.
      * intros Hapi. destruct (ApiResponse_renders _ Hapi) as [Ht He].
        unfold App.retake_offered. cbn. rewrite Ht, He. reflexivity.
      * intros Ht He.
        assert (Ho : App.retake_offered
                       (App.setCurrentView App.v_result
                          (App.setResult data
                             (App.setError "" (App.setCurrentView App.v_loading s))))
                     = false)
          by (unfold App.retake_offered; cbn; rewrite Ht, He; reflexivity).
        split; [exact Ho |].
        intros events. induction events as [| e rest IH]; [reflexivity |].
        cbn [play]. unfold App.dispatch at 1. rewrite Ho.
        cbn [App.currentView App.setCurrentView].
        destruct e; exact IH.
  - split; [| split; [| right; reflexivity]].
    + discriminate.
    + intros response data Ha Hok Hj.
      rewrite (submit_answered_outcome _ _ _ _ _ Ha) in Hout.
      unfold response_outcome in Hout. rewrite Hok, Hj in Hout. discriminate.
Qed.

(** X22. When the structured body of a failure response holds a value
    that cannot be converted to a string (an object with an entry
    "toString"), no message is joined: the three handlers set and display
    the message of the engine's [TypeError], provided it is not empty and
    does not contain "fetch". *)
Theorem unconvertible_value_shows_type_error (w : World N) (response : Response N) :
  ok response = false ->
  is_object (error_data response) = true ->
  errorMessages (error_data response) = None ->
  truthy_string TypeError_no_primitive = true ->
  includes "fetch" TypeError_no_primitive = false ->
  failure_message_shown w response TypeError_no_primitive.
Proof.
  intros Hok Hobj Hnone Hne Hinc.
  assert (Hre : response_error response = TypeError_no_primitive)
    by (unfold response_error; rewrite Hobj, Hnone; reflexivity).
  rewrite <- Hre.
  apply failure_response_shown; [exact Hok | rewrite Hre; exact Hne | rewrite Hre; exact Hinc].
Qed.

(** X21. A failure response whose message contains "fetch" is not shown
    as such: whether the endpoint sent it in a structured body or not,
    the three handlers set and display "Network error. Please check your
    connection." instead. *)
Theorem message_mentioning_fetch_is_masked (w : World N) (response : Response N) :
  ok response = false ->
  includes "fetch" (response_error response) = true ->
  failure_message_shown w response "Network error. Please check your connection.".
Proof.
  intros Hok Hinc.
  assert (Hout : response_outcome response
                 = Rejected (ErrorObject (response_error response))).
  { unfold response_outcome. rewrite Hok. reflexivity. }
  assert (Hcm : catch_message (ErrorObject (response_error response))
                = "Network error. Please check your connection.").
  { cbn. rewrite Hinc. reflexivity. }
  split; [| split].
  - intros s file Hfile Ha r. subst r.
    rewrite (handleUploadSubmit_settled _ _ _ Hfile). cbv zeta.
    rewrite (submit_answered_outcome _ _ _ _ _ Ha), Hout.
    unfold App.displayed_error, App.settled.
    cbn [last App.frames App.error App.currentView App.setCurrentView App.setError].
    rewrite Hcm. split; reflexivity.
  - intros s imageData b Hd Ha r. subst r.
    rewrite App_handleCapture_run, (capture_try_decoded _ _ _ _ Hd). cbv zeta.
    rewrite (submit_answered_outcome _ _ _ _ _ Ha), Hout.
    unfold App.displayed_error, App.settled.
    cbn [last App.frames App.error App.currentView App.setCurrentView App.setError].
    rewrite Hcm. split; reflexivity.
  - intros s imageData b Hd Ha r. subst r.
    rewrite AppLive_handleCapture_run, (capture_try_decoded _ _ _ _ Hd). cbv zeta.
    rewrite (submit_answered_outcome _ _ _ _ _ Ha), Hout.
    unfold AppLive.displayed_error, AppLive.settled.
    cbn [last AppLive.frames AppLive.error AppLive.currentView
         AppLive.setCurrentView AppLive.setError].
    rewrite Hcm. split; reflexivity.
Qed.

End WithNumbers.

(** *** The statements at concrete inputs *)

Import Examples Scenarios.

Lemma finger_survives_all_but_the_selector_witness :
  let w := answering api (respond 200 (Fulfilled payload)) in
  let events := [App.ClickProcessImage; App.ClickBackToStart; App.ClickUploadImage] in
  App.selectedFinger (play w events (uploading ring)) = ring.
Proof.
  intros w events.
  exact (finger_survives_all_but_the_selector w events (uploading ring) eq_refl).
Defined.

Lemma accepted_file_is_what_gets_posted_witness :
  let w := answering api (respond 200 (Fulfilled payload)) in
  let s' := App.handleFileSelect (Some [scan; notes]) after_failed_upload in
  App.selectedFile s' = Some scan /\
  App.error s' = "" /\
  App.displayed_error s' = None /\
  App.submit_disabled s' = false /\
  forms (App.sent (App.handleUploadSubmit w s'))
  = [[("finger_type", FieldString "ring"); ("original_image", FieldFile scan)]].
Proof.
  intros w s'.
  exact (accepted_file_is_what_gets_posted w after_failed_upload scan [notes] eq_refl).
Defined.

Lemma falsy_body_strands_the_result_view_witness :
  let s' := App.settled (framing middle)
              (App.dispatch null_body (App.OnCapture "iVBORw0KGgo=") (framing middle)) in
  App.currentView s' = App.v_result /\
  App.result s' = JNull /\
  forall events, play null_body events s' = s'.
Proof.
  intros s'.
  apply (falsy_body_strands_the_result_view null_body (framing middle)
           (App.OnCapture "iVBORw0KGgo=") (respond 200 (Fulfilled JNull)) JNull).
  - left. split; [reflexivity |].
    exists "iVBORw0KGgo=", "PNG". split; [reflexivity |]. split; [reflexivity |].
    exists "https://api.example.test". repeat split.
  - reflexivity.
  - reflexivity.
  - reflexivity.
Defined.

Lemma navigation_never_surfaces_an_error_witness :
  let w := answering api (respond 200 (Fulfilled payload)) in
  let s' := App.settled after_failed_upload
              (App.dispatch w App.ClickBack after_failed_upload) in
  App.displayed_error s' = None \/
  App.displayed_error s' = App.displayed_error after_failed_upload.
Proof.
  intros w s'.
  exact (navigation_never_surfaces_an_error w App.ClickBack after_failed_upload
           eq_refl).
Defined.

Lemma result_only_in_result_view_witness :
  let w := answering api (respond 200 (Fulfilled payload)) in
  App.result (App.settled App.initial (App.dispatch w App.ClickLiveCapture App.initial))
  = JNull.
Proof.
  intros w.
  apply (result_only_in_result_view w).
  - apply App.reachable_step. apply App.reachable_initial.
  - cbn. discriminate.
Defined.

Lemma live_capture_agrees_with_full_controller_witness :
  let w := answering api (respond 200 (Fulfilled payload)) in
  App.sent (App.handleCapture w "iVBORw0KGgo=" (framing middle))
  = AppLive.sent (AppLive.handleCapture w "iVBORw0KGgo=" (framing_live middle)).
Proof.
  intros w.
  apply (live_capture_agrees_with_full_controller w "iVBORw0KGgo="
           (framing middle) (framing_live middle)).
  repeat split.
Defined.

Lemma upload_outcomes_witness :
  (let w := answering api (respond 200 (Fulfilled payload)) in
   let s' := App.settled (uploading ring) (App.handleUploadSubmit w (uploading ring)) in
   App.currentView s' = App.v_result /\ App.result s' = payload /\
   App.retake_offered s' = true) /\
  (let w := answering api (respond 200 (Fulfilled empty_object)) in
   let s' := App.settled (uploading ring) (App.handleUploadSubmit w (uploading ring)) in
   App.retake_offered s' = false /\ forall events, play w events s' = s').
Proof.
  split.
  - intros w s'.
    destruct (upload_outcomes w (uploading ring) scan eq_refl)
      as (_ & Hanswered & _).
    destruct (Hanswered (respond 200 (Fulfilled payload)) payload)
      as (Hv & Hr & Hapi & _).
    + exists "https://api.example.test". repeat split.
    + reflexivity.
    + reflexivity.
    + split; [exact Hv | split; [exact Hr | exact (Hapi eq_refl)]].
  - intros w s'.
    destruct (upload_outcomes w (uploading ring) scan eq_refl)
      as (_ & Hanswered & _).
    destruct (Hanswered (respond 200 (Fulfilled empty_object)) empty_object)
      as (_ & _ & _ & Hthrows).
    + exists "https://api.example.test". repeat split.
    + reflexivity.
    + reflexivity.
    + exact (Hthrows eq_refl eq_refl).
Defined.

Lemma unconvertible_value_shows_type_error_witness :
  let response := respond 400 (Fulfilled toString_detail) in
  let s := uploading index in
  let r := App.handleUploadSubmit (answering api response) s in
  App.error (App.settled s r) = "Cannot convert object to primitive value" /\
  App.displayed_error (App.settled s r)
  = Some "Cannot convert object to primitive value".
Proof.
  intros response s r.
  apply (proj1 (@unconvertible_value_shows_type_error SafeInteger _ V8
                  (answering api response)
                  response eq_refl eq_refl eq_refl eq_refl eq_refl)
           s scan).
  - reflexivity.
  - exists "https://api.example.test". repeat split.
Defined.

Lemma message_mentioning_fetch_is_masked_witness :
  let response := respond 422 (Fulfilled fetch_detail) in
  let s := uploading index in
  let r := App.handleUploadSubmit (answering api response) s in
  App.error (App.settled s r) = "Network error. Please check your connection." /\
  App.displayed_error (App.settled s r)
  = Some "Network error. Please check your connection.".
Proof.
  intros response s r.
  apply (proj1 (message_mentioning_fetch_is_masked (answering api response)
                  response eq_refl eq_refl)
           s scan).
  - reflexivity.
  - exists "https://api.example.test". repeat split.
Defined.

End FlowFacts.

(* ================================================================== *)
(** ** Facts about the camera's start-up, capture and controls          *)
(* ================================================================== *)

Module CameraLifeFacts.
Import Camera CameraLife CameraFacts.
Local Open Scope Q_scope.

Lemma unchanged_number (q : Q) : changed_number q q = false.
Proof.
  unfold changed_number.
  assert (Hq : Qeq_bool q q = true) by (apply Qeq_bool_iff; reflexivity).
  rewrite Hq. reflexivity.
Qed.

Lemma unchanged_bool (b : bool) : changed_bool b b = false.
Proof. destruct b; reflexivity. Qed.

(** The constraint sets [applySettings] applies. *)
Lemma applySettings_sets (d : Device) (s : State) c :
  In (ApplyConstraints c) (applySettings d s) ->
  c = Torch (isFlashOn s) \/
  c = Manual (exposureTime s) (exposureCompensation s) (iso s) \/
  c = Continuous 0.
Proof.
  unfold applySettings. destruct (trackRef d); cbn; [| contradiction].
  intros [[= <-] | Hin]; [left; reflexivity |].
  destruct (isMacroMode s); cbn in Hin.
  - destruct Hin as [[= <-] | Hin]; [right; left; reflexivity |].
    destruct (supports d _ && imageCaptureRef d); cbn in Hin.
    + destruct Hin as [Hcontra | []]. discriminate Hcontra.
    + contradiction.
  - destruct Hin as [[= <-] | []]. right. right. reflexivity.
Qed.

(** The runs an event starts read the render before it or the render
    after it. *)
Lemma dispatch_runs (d : Device) (e : Event) (s : State) run :
  In run (snd (dispatch d e s)) ->
  run = applySettings d s \/ run = applySettings d (fst (dispatch d e s)).
Proof.
  unfold dispatch. destruct (hasPermission s); cbn; [| contradiction].
  destruct e; cbn.
  - intros Hin. right. exact (effects_new_render _ _ _ _ Hin).
  - intros [<- | Hin]; [left; reflexivity |].
    right. exact (effects_new_render _ _ _ _ Hin).
  - destruct (isMacroMode s); cbn; [| contradiction].
    intros Hin. right. exact (effects_new_render _ _ _ _ Hin).
  - destruct (isMacroMode s); cbn; [| contradiction].
    intros Hin. right. exact (effects_new_render _ _ _ _ Hin).
Qed.

Lemma dispatch_compensation (d : Device) (e : Event) (s : State) :
  exposureCompensation s = 0 ->
  exposureCompensation (fst (dispatch d e s)) = 0.
Proof.
  intros Hs. unfold dispatch. destruct (hasPermission s); [| exact Hs].
  destruct e; cbn.
  - exact Hs.
  - unfold toggleMacroMode_updates. destruct (negb (isMacroMode s)); [reflexivity | exact Hs].
  - destruct (isMacroMode s); exact Hs.
  - destruct (isMacroMode s); exact Hs.
Qed.

Lemma startCamera_compensation (p : Platform) (d : Device) (s : State) :
  exposureCompensation (state (startCamera p d s)) = exposureCompensation s.
Proof.
  unfold startCamera, failed.
  destruct (enumerateDevices p) as [devices | err]; [| reflexivity].
  destruct (length _ =? 0)%nat; [reflexivity |].
  destruct (getUserMedia p); [| reflexivity].
  destruct (videoRef p); [| reflexivity].
  destruct (play p); reflexivity.
Qed.

(** X9. The exposure compensation never leaves 0: it is 0 in every state
    of a mounted component, and every manual or continuous constraint set
    an event applies to the track carries exposureCompensation 0. *)
Theorem exposure_compensation_is_always_zero (s : State) :
  reachable s ->
  exposureCompensation s = 0 /\
  forall d e c,
    In c (applied (snd (dispatch d e s))) ->
    match c with
    | Manual _ compensation _ => compensation = 0
    | Continuous compensation => compensation = 0
    | Torch _ => True
    end.
Proof.
  intros Hr.
  assert (Hzero : exposureCompensation s = 0).
  { induction Hr as [| p d | d e s _ IH].
    - reflexivity.
    - rewrite startCamera_compensation. reflexivity.
    - apply dispatch_compensation, IH. }
  split; [exact Hzero |].
  intros d e c Hin. unfold applied in Hin.
  apply in_flat_map in Hin. destruct Hin as (call & Hcall & Hc).
  apply in_concat in Hcall. destruct Hcall as (run & Hrun & Hcall).
  destruct call as [c' | c']; [| contradiction].
  destruct Hc as [<- | []].
  assert (Hsets : exists s0, exposureCompensation s0 = 0 /\
                             In (ApplyConstraints c') (applySettings d s0)).
  { destruct (dispatch_runs _ _ _ _ Hrun) as [-> | ->].
    - exists s. split; assumption.
    - exists (fst (dispatch d e s)). split; [| assumption].
      apply dispatch_compensation, Hzero. }
  destruct Hsets as (s0 & Hs0 & Hin).
  destruct (applySettings_sets _ _ _ Hin) as [-> | [-> | ->]];
    [exact I | exact Hs0 | reflexivity].
Qed.

(** X10. A click on the exposure-mode button in macro mode switches to
    auto mode and keeps the slider values.  With camera permission and a
    live track, the handler's own call of [applySettings] still reads
    the render in macro mode and applies the manual set with the current
    values; the effect after the re-render then applies the torch and the
    continuous set. *)
Theorem toggle_into_auto_keeps_sliders (d : Device) (s : State) :
  isMacroMode s = true ->
  hasPermission s = true ->
  trackRef d = true ->
  fst (toggleMacroMode d s) = setIsMacroMode false s /\
  snd (toggleMacroMode d s)
  = [applySettings d s;
     [ApplyConstraints (Torch (isFlashOn s)); ApplyConstraints (Continuous 0)]] /\
  In (ApplyConstraints (Manual (exposureTime s) (exposureCompensation s) (iso s)))
     (applySettings d s).
Proof.
  intros Hmacro Hperm Htrack.
  assert (Hs' : toggleMacroMode_updates s = setIsMacroMode false s)
    by (unfold toggleMacroMode_updates; rewrite Hmacro; reflexivity).
  unfold toggleMacroMode. cbn [fst snd]. rewrite Hs'.
  split; [reflexivity |]. split.
  - unfold effects. cbn [isFlashOn isMacroMode hasPermission exposureTime iso
                         setIsMacroMode].
    rewrite Hmacro, Hperm, unchanged_bool, !unchanged_number. cbn.
    unfold applySettings at 2. rewrite Htrack. reflexivity.
  - unfold applySettings. rewrite Htrack, Hmacro. cbn. right. left. reflexivity.
Qed.

(** X11. Passing through auto mode loses the slider settings: two clicks
    on the exposure-mode button from macro mode lead back to macro mode
    with exposureTime 2.5, iso 400 and exposureCompensation 0, whatever
    the sliders showed, and change nothing else. *)
Theorem through_auto_and_back_resets_sliders (d : Device) (s : State) :
  isMacroMode s = true ->
  fst (toggleMacroMode d (fst (toggleMacroMode d s)))
  = setExposureCompensation 0 (setIso 400 (setExposureTime 2.5 s)).
Proof.
  intros Hmacro. unfold toggleMacroMode, toggleMacroMode_updates. cbn [fst].
  rewrite Hmacro. cbn. destruct s. cbn in *. subst. reflexivity.
Qed.

(** X12. Moving the ISO slider in macro mode, with camera permission and
    a live track, applies the torch and the manual set with the new ISO
    and the exposure time as it was, once; a slider event that reports
    the value already held applies nothing. *)
Theorem iso_slider_reapplies_manual_set (d : Device) (s : State) (value : Q) :
  hasPermission s = true ->
  isMacroMode s = true ->
  trackRef d = true ->
  fst (dispatch d (SlideIso value) s) = setIso value s /\
  applied (snd (dispatch d (SlideIso value) s))
  = if Qeq_bool (iso s) value then []
    else [Torch (isFlashOn s);
          Manual (exposureTime s) (exposureCompensation s) value].
Proof.
  intros Hperm Hmacro Htrack. unfold dispatch. rewrite Hperm, Hmacro.
  cbn [negb fst snd]. split; [reflexivity |].
  unfold effects. cbn [isFlashOn isMacroMode hasPermission exposureTime iso setIso].
  rewrite !unchanged_bool, unchanged_number, Hperm, Hmacro. cbn [orb andb app].
  unfold changed_number. destruct (Qeq_bool (iso s) value); cbn [negb]; [reflexivity |].
  unfold applied, applySettings. rewrite Htrack. cbn.
  rewrite Hmacro. cbn.
  destruct (supports d _ && imageCaptureRef d); reflexivity.
Qed.

(** X13. A click on the flash button flips [isFlashOn] and nothing else;
    with camera permission and a live track the torch is then set to the
    new value, once, before the exposure set of the current mode; a
    second click restores the state. *)
Theorem flash_toggle_applies_new_torch (d : Device) (s : State) :
  hasPermission s = true ->
  trackRef d = true ->
  fst (toggleFlash d s) = setIsFlashOn (negb (isFlashOn s)) s /\
  (exists exposure,
      applied (snd (toggleFlash d s)) = [Torch (negb (isFlashOn s)); exposure] /\
      exposure = if isMacroMode s
                 then Manual (exposureTime s) (exposureCompensation s) (iso s)
                 else Continuous 0) /\
  fst (toggleFlash d (fst (toggleFlash d s))) = s.
Proof.
  intros Hperm Htrack. unfold toggleFlash. cbn [fst snd].
  split; [reflexivity |]. split.
  - unfold effects.
    cbn [isFlashOn isMacroMode hasPermission exposureTime iso setIsFlashOn].
    rewrite unchanged_bool, !unchanged_number, Hperm.
    assert (Hflip : changed_bool (isFlashOn s) (negb (isFlashOn s)) = true)
      by (destruct (isFlashOn s); reflexivity).
    rewrite Hflip. cbn [orb app].
    unfold applied, applySettings. rewrite Htrack. cbn.
    destruct (isMacroMode s); cbn.
    + eexists. split; [| reflexivity].
      destruct (supports d _ && imageCaptureRef d); reflexivity.
    + eexists. split; reflexivity.
  - destruct s. cbn. rewrite negb_involutive. reflexivity.
Qed.

(** X14. [setOptions] is called on the image-capture object only when
    that object exists, in macro mode, with the very settings the track
    has just accepted. *)
Theorem setOptions_follows_accepted_constraints
  (d : Device) (s : State) (settings : ConstraintSet) :
  In (SetOptions settings) (applySettings d s) ->
  trackRef d = true /\ imageCaptureRef d = true /\ isMacroMode s = true /\
  settings = Manual (exposureTime s) (exposureCompensation s) (iso s) /\
  supports d settings = true /\
  In (ApplyConstraints settings) (applySettings d s).
Proof.
  unfold applySettings. destruct (trackRef d); cbn; [| contradiction].
  intros [Hcontra | Hin]; [discriminate Hcontra |].
  destruct (isMacroMode s); cbn in Hin |- *.
  - destruct Hin as [Hcontra | Hin]; [discriminate Hcontra |].
    destruct (supports d _) eqn:Hsup; cbn in Hin; [| contradiction].
    destruct (imageCaptureRef d) eqn:Hcap; cbn in Hin; [| contradiction].
    destruct Hin as [[= <-] | []].
    repeat split; try reflexivity; try assumption.
    right. left. reflexivity.
  - destruct Hin as [Hcontra | []]. discriminate Hcontra.
Qed.

(** X15. When no enumerated device is a video input, [startCamera] never
    asks for a stream: its only call is the enumeration, the refs are
    untouched, permission is off and the error is "Error accessing
    camera. No camera detected on this device". *)
Theorem no_video_input_no_stream_request
  (p : Platform) (d : Device) (s : State) (devices : list string) :
  enumerateDevices p = Resolved devices ->
  ~ In "videoinput"%string devices ->
  let r := startCamera p d s in
  calls r = [EnumerateDevices] /\
  device r = d /\
  hasPermission (state r) = false /\
  error (state r)
  = "Error accessing camera. No camera detected on this device"%string.
Proof.
  intros He Hnone r. subst r. unfold startCamera. rewrite He.
  assert (Hf : filter (fun kind => (kind =? "videoinput")%string) devices = []).
  { clear He. induction devices as [| kind rest IH]; [reflexivity |].
    cbn. destruct (kind =? "videoinput")%string eqn:Hk.
    - apply String.eqb_eq in Hk. subst kind. exfalso. apply Hnone. left. reflexivity.
    - apply IH. intros Hin. apply Hnone. right. exact Hin. }
  rewrite Hf. cbn. repeat split.
Qed.

Lemma prefix_append (p x : string) : String.prefix p (p ++ x) = true.
Proof.
  induction p as [| a rest IH]; cbn; [destruct x; reflexivity |].
  destruct (Ascii.ascii_dec a a) as [_ | Hne]; [exact IH | congruence].
Qed.

Lemma failed_reports (err : Exception) (d : Device) (s : State) log :
  hasPermission (state (failed err d s log)) = false /\
  String.prefix "Error accessing camera. " (error (state (failed err d s log)))
  = true.
Proof.
  split; [reflexivity |]. cbn [failed state error setHasPermission setError].
  unfold errorMessage. apply prefix_append.
Qed.

(** X16. The controls and the error overlay are never on screen
    together: in every state of a mounted component with camera
    permission the error is empty, and a state without permission is the
    first render or carries an error that starts with "Error accessing
    camera. ".  Only [startCamera] sets the error: in [applySettings]
    every device call sits in a [try] of its own, so its outer [catch]
    is not entered. *)
Theorem permission_excludes_error (s : State) :
  reachable s ->
  (hasPermission s = true -> error s = ""%string) /\
  (hasPermission s = false ->
   s = initial \/ String.prefix "Error accessing camera. " (error s) = true).
Proof.
  induction 1 as [| p d | d e s _ [IHon IHoff]].
  - split; [discriminate | intros _; left; reflexivity].
  - assert (Hfailed : forall err d0 log,
               (hasPermission (state (failed err d0 initial log)) = true ->
                error (state (failed err d0 initial log)) = ""%string) /\
               (hasPermission (state (failed err d0 initial log)) = false ->
                state (failed err d0 initial log) = initial \/
                String.prefix "Error accessing camera. "
                  (error (state (failed err d0 initial log))) = true)).
    { intros err d0 log. destruct (failed_reports err d0 initial log) as [Hoff Hpre].
      split; [rewrite Hoff; discriminate | intros _; right; exact Hpre]. }
    unfold startCamera.
    destruct (enumerateDevices p) as [devices | err]; [| apply Hfailed].
    destruct (length _ =? 0)%nat; [apply Hfailed |].
    destruct (getUserMedia p); [| apply Hfailed].
    destruct (videoRef p);
      [| split; [discriminate | intros _; left; reflexivity]].
    destruct (play p); [| apply Hfailed].
    split; [reflexivity | discriminate].
  - unfold dispatch. destruct (hasPermission s) eqn:Hperm; cbn [negb].
    + destruct e; cbn [fst toggleFlash toggleMacroMode].
      * split; [intros _; exact (IHon eq_refl) | cbn; congruence].
      * unfold toggleMacroMode_updates.
        destruct (negb (isMacroMode s)); cbn;
          (split; [intros _; exact (IHon eq_refl) | congruence]).
      * destruct (isMacroMode s); cbn;
          (split; [intros _; exact (IHon eq_refl) | congruence]).
      * destruct (isMacroMode s); cbn;
          (split; [intros _; exact (IHon eq_refl) | congruence]).
    + cbn. rewrite Hperm. split; [discriminate | exact IHoff].
Qed.

(** X17. When the stream is acquired but [play()] rejects, [startCamera]
    reports the failure (permission off, the message built from the
    rejection) and leaves the track in [trackRef]: no call stops the
    acquired stream. *)
Theorem failed_play_keeps_the_track
  (p : Platform) (d : Device) (s : State) (devices : list string) (err : Exception) :
  enumerateDevices p = Resolved devices ->
  In "videoinput"%string devices ->
  getUserMedia p = Resolved tt ->
  videoRef p = true ->
  play p = Failed err ->
  let r := startCamera p d s in
  hasPermission (state r) = false /\
  error (state r) = errorMessage err /\
  trackRef (device r) = true /\
  calls r = [EnumerateDevices] ++
            (if srcObject_is_stream p then [StopTracks] else []) ++
            [GetUserMedia; Play].
Proof.
  intros He Hcam Hg Hv Hp r. subst r. unfold startCamera. rewrite He.
  assert (Hf : (length (filter (fun kind => (kind =? "videoinput")%string) devices)
                =? 0)%nat = false).
  { apply Nat.eqb_neq. intros Hlen. apply length_zero_iff_nil in Hlen.
    assert (Hin : In "videoinput"%string
                    (filter (fun kind => (kind =? "videoinput")%string) devices))
      by (apply filter_In; split; [exact Hcam | reflexivity]).
    rewrite Hlen in Hin. contradiction. }
  rewrite Hf, Hg, Hv, Hp. cbn.
  repeat split. destruct (srcObject_is_stream p); reflexivity.
Qed.

(** X18. When a video input exists, the stream is granted and the video
    plays, [startCamera] ends with permission on and the error cleared,
    the track in [trackRef], and, as its last calls, the settings of the
    render it was started from; a stream already on the video element is
    stopped before the new one is requested. *)
Theorem started_camera_applies_settings
  (p : Platform) (d : Device) (s : State) (devices : list string) :
  enumerateDevices p = Resolved devices ->
  In "videoinput"%string devices ->
  getUserMedia p = Resolved tt ->
  videoRef p = true ->
  play p = Resolved tt ->
  let r := startCamera p d s in
  state r = setError "" (setHasPermission true s) /\
  trackRef (device r) = true /\
  imageCaptureRef (device r) = (ImageCapture_in_window p || imageCaptureRef d) /\
  calls r = [EnumerateDevices] ++
            (if srcObject_is_stream p then [StopTracks] else []) ++
            [GetUserMedia; Play] ++
            map OnTrack (applySettings (device r) s) /\
  In (OnTrack (ApplyConstraints (Torch (isFlashOn s)))) (calls r).
Proof.
  intros He Hcam Hg Hv Hp r. subst r. unfold startCamera. rewrite He.
  assert (Hf : (length (filter (fun kind => (kind =? "videoinput")%string) devices)
                =? 0)%nat = false).
  { apply Nat.eqb_neq. intros Hlen. apply length_zero_iff_nil in Hlen.
    assert (Hin : In "videoinput"%string
                    (filter (fun kind => (kind =? "videoinput")%string) devices))
      by (apply filter_In; split; [exact Hcam | reflexivity]).
    rewrite Hlen in Hin. contradiction. }
  rewrite Hf, Hg, Hv, Hp. cbn [state device calls trackRef imageCaptureRef andb].
  split; [reflexivity |]. split; [reflexivity |].
  split; [destruct (ImageCapture_in_window p); reflexivity |].
  split.
  - destruct (srcObject_is_stream p); reflexivity.
  - rewrite !in_app_iff. right. right.
    apply in_map. unfold applySettings. cbn. left. reflexivity.
Qed.

Lemma split_nonempty (sep : ascii) (s : string) : split sep s <> [].
Proof.
  destruct s as [| a rest]; cbn; [discriminate |].
  destruct (Ascii.eqb a sep); [discriminate |].
  destruct (split sep rest); discriminate.
Qed.

(** Joining the pieces of a split gives the string back. *)
Lemma split_join (sep : ascii) (s : string) :
  String.concat (String sep EmptyString) (split sep s) = s.
Proof.
  induction s as [| a rest IH]; [reflexivity |].
  cbn [split].
  destruct (split sep rest) as [| piece pieces] eqn:Hs;
    [exfalso; exact (split_nonempty sep rest Hs) |].
  destruct (Ascii.eqb a sep) eqn:Ha.
  - apply Ascii.eqb_eq in Ha. subst a.
    change (String sep (String.concat (String sep "") (piece :: pieces))
            = String sep rest).
    rewrite IH. reflexivity.
  - destruct pieces as [| piece' pieces'].
    + cbn in IH |- *. rewrite IH. reflexivity.
    + change (String a (piece ++ String sep ""
                        ++ String.concat (String sep "") (piece' :: pieces'))
              = String a rest).
      f_equal. exact IH.
Qed.

(** A string without the separator is a single piece. *)
Lemma split_without (sep : ascii) (s : string) :
  String.index 0 (String sep EmptyString) s = None -> split sep s = [s].
Proof.
  induction s as [| a rest IH]; [reflexivity |].
  cbn [split String.index String.prefix].
  destruct (Ascii.ascii_dec sep a) as [-> | Hne].
  - destruct rest; discriminate.
  - assert (Ha : Ascii.eqb a sep = false)
      by (apply Ascii.eqb_neq; congruence).
    rewrite Ha. destruct (String.index 0 (String sep "") rest) eqn:Hi;
      [discriminate |].
    intros _. rewrite (IH eq_refl). reflexivity.
Qed.

Lemma split_prefix (sep : ascii) (p s : string) :
  String.index 0 (String sep EmptyString) p = None ->
  split sep (p ++ String sep s) = p :: split sep s.
Proof.
  induction p as [| a rest IH]; cbn [String.append split].
  - intros _. rewrite Ascii.eqb_refl. reflexivity.
  - cbn [String.index String.prefix].
    destruct (Ascii.ascii_dec sep a) as [-> | Hne].
    + destruct rest; discriminate.
    + assert (Ha : Ascii.eqb a sep = false)
        by (apply Ascii.eqb_neq; congruence).
      rewrite Ha. destruct (String.index 0 (String sep "") rest) eqn:Hi;
        [discriminate |].
      intros _. rewrite (IH eq_refl). reflexivity.
Qed.

(** X19. The capture hands over exactly what the controller needs to
    rebuild the canvas's data URL: for a data URL
    "data:image/png;base64," followed by a payload without comma,
    [captureImage] calls [onCapture] with the payload, and the first
    request [handleCapture] then makes for that payload is a GET of the
    canvas's data URL.  Without the video element or a 2D context
    [onCapture] is not called. *)
Theorem capture_hands_over_the_payload
  {N : Type} `{JS.JsNumber N} `{JS.JsEngine}
  (w : Web.World N) (s : App.State N) (payload : string) :
  String.index 0 "," payload = None ->
  let dataURL := ("data:image/png;base64," ++ payload)%string in
  captureImage true true dataURL = Some (Some payload) /\
  (exists others,
      App.sent (App.handleCapture w payload s)
      = {| Web.url := dataURL; Web.method := "GET"; Web.body := None |}
        :: others) /\
  (forall context2d d, captureImage false context2d d = None) /\
  (forall video d, captureImage video false d = None).
Proof.
  intros Hp dataURL. subst dataURL. split; [| split; [| split]].
  - unfold captureImage. cbn [negb].
    change ("data:image/png;base64," ++ payload)%string
      with ("data:image/png;base64" ++ String "," payload)%string.
    rewrite split_prefix by reflexivity.
    rewrite (split_without _ _ Hp). reflexivity.
  - rewrite AppFacts.App_handleCapture_sent, SubmissionFacts.capture_try.
    destruct (Exchange.decode w payload) as [b | err].
    + rewrite AppFacts.submit_posts. eexists. reflexivity.
    + eexists. reflexivity.
  - reflexivity.
  - intros video d. unfold captureImage. destruct video; reflexivity.
Qed.

(** *** The statements at concrete inputs *)

Import JS Examples Scenarios.

Lemma exposure_compensation_is_always_zero_witness :
  exposureCompensation (state (startCamera working unstarted initial)) = 0.
Proof.
  exact (proj1 (exposure_compensation_is_always_zero _
                  (reachable_started working unstarted))).
Defined.

Lemma toggle_into_auto_keeps_sliders_witness :
  fst (toggleMacroMode Examples.phone macro_mode) = setIsMacroMode false macro_mode /\
  applied (snd (toggleMacroMode Examples.phone macro_mode))
  = [Torch false; Manual 7.3 0 800; Torch false; Continuous 0].
Proof.
  destruct (toggle_into_auto_keeps_sliders Examples.phone macro_mode
              eq_refl eq_refl eq_refl) as (Hstate & Hruns & _).
  split; [exact Hstate | rewrite Hruns; reflexivity].
Defined.

Lemma through_auto_and_back_resets_sliders_witness :
  fst (toggleMacroMode Examples.phone
         (fst (toggleMacroMode Examples.phone macro_mode)))
  = setExposureCompensation 0 (setIso 400 (setExposureTime 2.5 macro_mode)).
Proof.
  exact (through_auto_and_back_resets_sliders Examples.phone macro_mode eq_refl).
Defined.

Lemma iso_slider_reapplies_manual_set_witness :
  applied (snd (dispatch Examples.phone (SlideIso 400) macro_mode))
  = [Torch false; Manual 7.3 0 400].
Proof.
  exact (proj2 (iso_slider_reapplies_manual_set Examples.phone macro_mode 400
                  eq_refl eq_refl eq_refl)).
Defined.

Lemma flash_toggle_applies_new_torch_witness :
  fst (toggleFlash Examples.phone (fst (toggleFlash Examples.phone macro_mode)))
  = macro_mode.
Proof.
  exact (proj2 (proj2 (flash_toggle_applies_new_torch Examples.phone macro_mode
                         eq_refl eq_refl))).
Defined.

Lemma setOptions_follows_accepted_constraints_witness :
  In (ApplyConstraints (Manual 7.3 0 800)) (applySettings Examples.phone macro_mode).
Proof.
  apply (setOptions_follows_accepted_constraints Examples.phone macro_mode
           (Manual 7.3 0 800)).
  cbn. right. right. left. reflexivity.
Defined.

Lemma no_video_input_no_stream_request_witness :
  calls (startCamera no_camera unstarted initial) = [EnumerateDevices] /\
  error (state (startCamera no_camera unstarted initial))
  = "Error accessing camera. No camera detected on this device"%string.
Proof.
  destruct (no_video_input_no_stream_request no_camera unstarted initial
              ["audioinput"%string] eq_refl)
    as (Hcalls & _ & _ & Herror).
  - intros [Hin | []]. discriminate Hin.
  - split; [exact Hcalls | exact Herror].
Defined.

Lemma permission_excludes_error_witness :
  error (state (startCamera working unstarted initial)) = ""%string.
Proof.
  apply (proj1 (permission_excludes_error _ (reachable_started working unstarted))).
  reflexivity.
Defined.

Lemma failed_play_keeps_the_track_witness :
  let r := startCamera autoplay_blocked unstarted initial in
  hasPermission (state r) = false /\
  error (state r) = "Error accessing camera. Please grant camera permissions."%string /\
  trackRef (device r) = true /\
  calls r = [EnumerateDevices; GetUserMedia; Play].
Proof.
  intros r.
  apply (failed_play_keeps_the_track autoplay_blocked unstarted initial
           ["videoinput"%string]
           (ErrorNamed "NotAllowedError" "play() failed"));
    try reflexivity.
  left. reflexivity.
Defined.

Lemma started_camera_applies_settings_witness :
  calls (startCamera working unstarted initial)
  = [EnumerateDevices; GetUserMedia; Play;
     OnTrack (ApplyConstraints (Torch true));
     OnTrack (ApplyConstraints (Manual 2.5 0 400));
     OnTrack (SetOptions (Manual 2.5 0 400))].
Proof.
  destruct (started_camera_applies_settings working unstarted initial
              ["audioinput"%string; "videoinput"%string]
              eq_refl (or_intror (or_introl eq_refl)) eq_refl eq_refl eq_refl)
    as (_ & _ & _ & Hcalls & _).
  rewrite Hcalls. reflexivity.
Defined.

Lemma capture_hands_over_the_payload_witness :
  captureImage true true "data:image/png;base64,iVBORw0KGgo="
  = Some (Some "iVBORw0KGgo="%string) /\
  App.sent (App.handleCapture Examples.offline "iVBORw0KGgo="
              (Examples.framing Submission.index))
  = [{| Web.url := "data:image/png;base64,iVBORw0KGgo=";
        Web.method := "GET"; Web.body := None |};
     Exchange.post_request "https://api.example.test" Submission.index
       (Exchange.png_file "PNG")].
Proof.
  destruct (capture_hands_over_the_payload Examples.offline
              (Examples.framing Submission.index) "iVBORw0KGgo=" eq_refl)
    as (Hcapture & _ & _).
  split; [exact Hcapture | reflexivity].
Defined.

End CameraLifeFacts.
